(** * Crawl4AI scraping scripts: a shallow embedding and its properties

    The repository holds two command-line scripts, [scrape.py] and
    [scrape_reddit.py].  Both are thin orchestration over external
    collaborators: the process environment, the browser driven by
    [AsyncWebCrawler], the [json] module and the file system.  The
    collaborators are gathered in a record [World] of oracles, so that
    every statement quantified over worlds holds whatever the collaborators
    answer.  The scripts themselves are embedded as computations in a small
    state-and-exception monad whose state is the file system and the
    chronological trace of what the script did to the outside (lines
    printed, browser launched, page crawled, browser closed).

    What the model takes for granted: [print] does not fail; closing the
    browser does not fail; once a file has been opened for writing, writing
    the text and closing the file do not fail; the coroutines are run to
    completion by [asyncio.run], one after the other. *)

From Stdlib Require Import ZArith Ascii String List Bool Lia.
From stdpp Require Import base option strings pretty gmap.

Local Open Scope Z_scope.
Set Warnings "-register-all".

(** ** Python strings

    A Python [str] is modelled as a Rocq [string] whose characters are the
    code points below 256. *)

Module PyStr.

Definition nl : string := String "010"%char "".
Definition dquote : ascii := "034"%char.
Definition squote : ascii := "039"%char.
Definition backslash : ascii := "092"%char.

(** [s[:n]] *)
Fixpoint take (n : nat) (s : string) : string :=
  match n, s with
  | S n', String c s' => String c (take n' s')
  | _, _ => ""
  end.

(** [s.replace(a, b)] for one-character [a] and [b]. *)
Fixpoint replace (a b : ascii) (s : string) : string :=
  match s with
  | "" => ""
  | String c s' => String (if Ascii.eqb c a then b else c) (replace a b s')
  end.

(** [c in s] *)
Fixpoint mem (c : ascii) (s : string) : bool :=
  match s with
  | "" => false
  | String d s' => Ascii.eqb d c || mem c s'
  end.

(** [bool(s)] *)
Definition truthy (s : string) : bool :=
  match s with "" => false | _ => true end.

(** The characters of [s], each as a one-character string
    (what iterating over a [str] yields). *)
Fixpoint chars (s : string) : list string :=
  match s with
  | "" => []
  | String c s' => String c "" :: chars s'
  end.

(** [sep.join(l)] *)
Fixpoint join (sep : string) (l : list string) : string :=
  match l with
  | [] => ""
  | [x] => x
  | x :: l' => x +:+ sep +:+ join sep l'
  end.

Definition hex_digit (n : N) : ascii :=
  match n with
  | 0 => "0" | 1 => "1" | 2 => "2" | 3 => "3" | 4 => "4" | 5 => "5"
  | 6 => "6" | 7 => "7" | 8 => "8" | 9 => "9" | 10 => "a" | 11 => "b"
  | 12 => "c" | 13 => "d" | 14 => "e" | _ => "f"
  end%N%char.

(** Two lowercase hexadecimal digits of a code point below 256. *)
Definition hex2 (c : ascii) : string :=
  let n := N_of_ascii c in
  String (hex_digit (n / 16)) (String (hex_digit (n mod 16)) "").

(** [str(n)] for an [int]. *)
Definition of_Z (n : Z) : string := pretty n.
Definition of_nat (n : nat) : string := pretty n.

End PyStr.

(** ** Python values

    The values [json.loads] can return.  A [float] is carried by its
    [repr()]: the scripts only test it for truth, format it and hand it
    back to [json.dump].  A [dict] is an association list in insertion
    order, as [json.dump] writes it. *)

Inductive pyval : Type :=
| PyNone
| PyBool (b : bool)
| PyInt (n : Z)
| PyFloat (repr : string)
| PyStr (s : string)
| PyList (l : list pyval)
| PyDict (d : list (string * pyval)).

Inductive exn : Type :=
| ValueError (msg : string)
| JSONDecodeError (msg : string)
| AttributeError
| TypeError
| KeyError
| OSError (msg : string)
| SystemExit (code : Z)
| ExternalError (msg : string).

(** How a call ends: with a value, or with an exception. *)
Inductive outcome (A : Type) : Type :=
| Returned (a : A)
| Raised (e : exn).
Arguments Returned {A} a.
Arguments Raised {A} e.

Module Py.
Import PyStr.

(** [d.get(key, default)] on a [dict]. *)
Fixpoint dict_get (d : list (string * pyval)) (key : string) (default : pyval) : pyval :=
  match d with
  | [] => default
  | (k, v) :: d' => if String.eqb k key then v else dict_get d' key default
  end.

(** [x.get(key, default)]: only a [dict] has the attribute. *)
Definition get (x : pyval) (key : string) (default : pyval) : outcome pyval :=
  match x with
  | PyDict d => Returned (dict_get d key default)
  | _ => Raised AttributeError
  end.

(** [bool(x)] *)
Definition truthy (x : pyval) : bool :=
  match x with
  | PyNone => false
  | PyBool b => b
  | PyInt n => negb (n =? 0)
  | PyFloat r => negb (String.eqb r "0.0" || String.eqb r "-0.0")
  | PyStr s => PyStr.truthy s
  | PyList l => match l with [] => false | _ => true end
  | PyDict d => match d with [] => false | _ => true end
  end.

(** [len(x)] *)
Definition len (x : pyval) : outcome nat :=
  match x with
  | PyStr s => Returned (String.length s)
  | PyList l => Returned (length l)
  | PyDict d => Returned (length d)
  | _ => Raised TypeError
  end.

(** The items a [for] loop over [x] visits. *)
Definition iter (x : pyval) : outcome (list pyval) :=
  match x with
  | PyStr s => Returned (map PyStr (chars s))
  | PyList l => Returned l
  | PyDict d => Returned (map (fun kv => PyStr kv.1) d)
  | _ => Raised TypeError
  end.

(** [x[:n]].  A [dict] looks the slice up as a key: before Python 3.12 a
    slice cannot be hashed ([TypeError]); from 3.12 on it can, and is not
    found ([KeyError]). *)
Definition slice_to (hashable_slices : bool) (n : nat) (x : pyval) : outcome pyval :=
  match x with
  | PyStr s => Returned (PyStr (PyStr.take n s))
  | PyList l => Returned (PyList (firstn n l))
  | PyDict _ => Raised (if hashable_slices then KeyError else TypeError)
  | _ => Raised TypeError
  end.

(** [repr(s)] for a [str]. *)
Definition printable (c : ascii) : bool :=
  let n := N_of_ascii c in
  ((32 <=? n) && (n <? 127) || (161 <=? n) && negb (n =? 173))%N.

Definition repr_char (quote c : ascii) : string :=
  if Ascii.eqb c quote || Ascii.eqb c backslash then String backslash (String c "")
  else if Ascii.eqb c "009" then String backslash "t"
  else if Ascii.eqb c "010" then String backslash "n"
  else if Ascii.eqb c "013" then String backslash "r"
  else if printable c then String c ""
  else String backslash (String "x" (hex2 c)).

Fixpoint repr_chars (quote : ascii) (s : string) : string :=
  match s with
  | "" => ""
  | String c s' => repr_char quote c +:+ repr_chars quote s'
  end.

Definition repr_str (s : string) : string :=
  let quote := if mem squote s && negb (mem dquote s) then dquote else squote in
  String quote (repr_chars quote s +:+ String quote "").

(** [repr(x)] *)
Fixpoint repr (x : pyval) : string :=
  match x with
  | PyNone => "None"
  | PyBool b => if b then "True" else "False"
  | PyInt n => of_Z n
  | PyFloat r => r
  | PyStr s => repr_str s
  | PyList l => "[" +:+ join ", " (map repr l) +:+ "]"
  | PyDict d =>
      "{" +:+ join ", " (map (fun '(k, v) => repr_str k +:+ ": " +:+ repr v) d) +:+ "}"
  end.

(** [str(x)], which is what an f-string field [{x}] inserts. *)
Definition str (x : pyval) : string :=
  match x with
  | PyStr s => s
  | _ => repr x
  end.

(** [str(x)] for an [Optional[str]] or [Optional[int]] attribute. *)
Definition str_opt (x : option string) : string := default "None" x.
Definition str_opt_Z (x : option Z) : string := default "None" (of_Z <$> x).

End Py.

(** ** [json.dump(obj, f, indent=2)]

    The text the encoder produces with its defaults ([ensure_ascii=True],
    [allow_nan=True]) and [indent=2]: items separated by a comma and a new
    line, keys by a colon and a space, empty containers written flat. *)

Module Json.
Import PyStr.

Definition escape_char (c : ascii) : string :=
  if Ascii.eqb c dquote then String backslash (String dquote "")
  else if Ascii.eqb c backslash then String backslash (String backslash "")
  else if Ascii.eqb c "010" then String backslash "n"
  else if Ascii.eqb c "013" then String backslash "r"
  else if Ascii.eqb c "009" then String backslash "t"
  else if Ascii.eqb c "008" then String backslash "b"
  else if Ascii.eqb c "012" then String backslash "f"
  else if ((32 <=? N_of_ascii c) && (N_of_ascii c <? 127))%N then String c ""
  else String backslash ("u00" +:+ hex2 c).

Fixpoint escape (s : string) : string :=
  match s with
  | "" => ""
  | String c s' => escape_char c +:+ escape s'
  end.

Definition encode_str (s : string) : string :=
  String dquote (escape s +:+ String dquote "").

Definition encode_float (r : string) : string :=
  if String.eqb r "nan" then "NaN"
  else if String.eqb r "inf" then "Infinity"
  else if String.eqb r "-inf" then "-Infinity"
  else r.

Fixpoint spaces (n : nat) : string :=
  match n with
  | O => ""
  | S n' => String " " (spaces n')
  end.

Definition newline_indent (level : nat) : string := nl +:+ spaces (2 * level).

Fixpoint encode (level : nat) (x : pyval) : string :=
  match x with
  | PyNone => "null"
  | PyBool b => if b then "true" else "false"
  | PyInt n => of_Z n
  | PyFloat r => encode_float r
  | PyStr s => encode_str s
  | PyList [] => "[]"
  | PyList l =>
      "[" +:+ newline_indent (S level)
          +:+ join ("," +:+ newline_indent (S level)) (map (encode (S level)) l)
          +:+ newline_indent level +:+ "]"
  | PyDict [] => "{}"
  | PyDict d =>
      "{" +:+ newline_indent (S level)
          +:+ join ("," +:+ newline_indent (S level))
                (map (fun '(k, v) => encode_str k +:+ ": " +:+ encode (S level) v) d)
          +:+ newline_indent level +:+ "}"
  end.

Definition dumps_indent2 (x : pyval) : string := encode 0 x.

End Json.

(** ** [urllib.parse.urlparse(url).netloc]

    The network-location component as CPython's [urlsplit] computes it
    (the source of Python 3.12): leading C0 controls and spaces are stripped, tabs
    and line breaks removed, a scheme is split off at the first colon when
    everything before it is a scheme character and the first character is
    a letter, and when the rest starts with two slashes the netloc runs up
    to the first of [/], [?] and [#].  In the modelled range of code points
    the NFKC check of [_checknetloc] never fires. *)

Module Url.
Import PyStr.

Fixpoint lstrip_c0_or_space (s : string) : string :=
  match s with
  | String c s' => if (N_of_ascii c <=? 32)%N then lstrip_c0_or_space s' else s
  | "" => ""
  end.

Fixpoint remove_unsafe (s : string) : string :=
  match s with
  | "" => ""
  | String c s' =>
      if Ascii.eqb c "009" || Ascii.eqb c "013" || Ascii.eqb c "010"
      then remove_unsafe s' else String c (remove_unsafe s')
  end.

Definition is_alpha (c : ascii) : bool :=
  let n := N_of_ascii c in
  ((65 <=? n) && (n <=? 90) || (97 <=? n) && (n <=? 122))%N.

Definition is_scheme_char (c : ascii) : bool :=
  let n := N_of_ascii c in
  is_alpha c || ((48 <=? n) && (n <=? 57))%N
  || Ascii.eqb c "+" || Ascii.eqb c "-" || Ascii.eqb c ".".

(** What follows the first colon, when every character before it is a
    scheme character; [None] when there is no such colon. *)
Fixpoint after_scheme (s : string) : option string :=
  match s with
  | "" => None
  | String c s' =>
      if Ascii.eqb c ":" then Some s'
      else if is_scheme_char c then after_scheme s'
      else None
  end.

Definition strip_scheme (url : string) : string :=
  match url with
  | String c _ =>
      if is_alpha c then default url (after_scheme url) else url
  | "" => url
  end.

(** [url[:delim]] for the earliest [/], [?] or [#]. *)
Fixpoint up_to_delim (s : string) : string :=
  match s with
  | "" => ""
  | String c s' =>
      if Ascii.eqb c "/" || Ascii.eqb c "?" || Ascii.eqb c "#" then ""
      else String c (up_to_delim s')
  end.

Definition split_netloc (url : string) : string :=
  match strip_scheme (remove_unsafe (lstrip_c0_or_space url)) with
  | String "/" (String "/" rest) => up_to_delim rest
  | _ => ""
  end.

(** [s.partition(c)[0]] and [s.partition(c)[2]] *)
Fixpoint before_first (c : ascii) (s : string) : string :=
  match s with
  | "" => ""
  | String d s' => if Ascii.eqb d c then "" else String d (before_first c s')
  end.

Fixpoint after_first (c : ascii) (s : string) : string :=
  match s with
  | "" => ""
  | String d s' => if Ascii.eqb d c then s' else after_first c s'
  end.

(** [s.rpartition(c)[2]] *)
Fixpoint after_last (c : ascii) (s : string) : string :=
  match s with
  | "" => ""
  | String d s' =>
      if mem c s' then after_last c s'
      else if Ascii.eqb d c then s' else s
  end.

Definition bracketed_host (netloc : string) : string :=
  before_first "]" (after_first "[" netloc).

(** [urlparse(url).netloc], with the [ValueError]s [urlsplit] raises on
    brackets.  [check_bracketed_host] stands for the validation of a
    bracketed IP literal by the [ipaddress] module: the message of the
    error it raises, if any. *)
Definition netloc (check_bracketed_host : string -> option string) (url : string)
  : outcome string :=
  let n := split_netloc url in
  if mem "[" n && negb (mem "]" n) || mem "]" n && negb (mem "[" n)
  then Raised (ValueError "Invalid IPv6 URL")
  else if mem "[" n && mem "]" n then
    match check_bracketed_host (bracketed_host n) with
    | Some msg => Raised (ValueError msg)
    | None => Returned n
    end
  else Returned n.

(** The host subcomponent of a network location
    [[userinfo@]host[:port]], as written: what follows the last [@], up
    to the closing bracket of a bracketed literal or else up to the first
    colon. *)
Definition host (netloc : string) : string :=
  let hostinfo := after_last "@" netloc in
  if mem "[" hostinfo then before_first "]" (after_first "[" hostinfo)
  else before_first ":" hostinfo.

End Url.

(** ** The crawler library's configuration and result objects *)

Record BrowserConfig : Type := {
  headless : bool;
  verbose : bool
}.

Inductive CacheMode : Type := ENABLED | DISABLED | READ_ONLY | WRITE_ONLY | BYPASS.

Record LLMConfig : Type := {
  provider : string;
  api_token : string
}.

(** A pydantic model as declared: its fields and whether each is required. *)
Record FieldDecl : Type := {
  field_name : string;
  field_required : bool
}.

(** A model with one field holding a list of records: the field's name and
    the declaration of the records. *)
Record ListModelDecl : Type := {
  list_field : string;
  item_fields : list FieldDecl
}.

Record LLMExtractionStrategy : Type := {
  llm_config : LLMConfig;
  schema : ListModelDecl;
  extraction_type : string;
  instruction : string
}.

Record CrawlerRunConfig : Type := {
  extraction_strategy : option LLMExtractionStrategy;
  cache_mode : CacheMode;
  wait_until : string;
  delay_before_return_html : Z;          (* seconds *)
  js_code : option string
}.

Record CrawlResult : Type := {
  success : bool;
  status_code : option Z;
  markdown : option string;
  extracted_content : option string;
  error_message : option string
}.

(** ** The world outside the scripts

    Everything the scripts call but do not define.  [launch] is the start
    of the browser in [AsyncWebCrawler.__aenter__] ([None]: it started),
    [arun] the crawl with its model call, [json_loads] is [json.loads],
    [open_w] is [open(path, "w")] ([None]: the file was opened),
    [getenv] is [os.getenv] after [load_dotenv()], and
    [check_bracketed_host] is the validation of a bracketed IP literal
    inside [urlparse] ([None]: accepted), and [hashable_slices] tells
    whether the interpreter can hash a slice (Python 3.12 and later). *)

Record World : Type := {
  getenv : string -> option string;
  launch : BrowserConfig -> option exn;
  arun : string -> CrawlerRunConfig -> outcome CrawlResult;
  json_loads : string -> outcome pyval;
  open_w : string -> option exn;
  check_bracketed_host : string -> option string;
  hashable_slices : bool
}.

(** What a script does to the outside, in the order it does it. *)
Inductive event : Type :=
| EPrint (text : string)
| ELaunch (config : BrowserConfig)
| EArun (url : string) (config : CrawlerRunConfig)
| EClose.

Record state : Type := {
  fs : gmap string string;
  trace : list event
}.

(** ** The monad of script code: state and exceptions *)

Definition M (A : Type) : Type := state -> outcome A * state.

#[global] Instance M_ret : MRet M := fun A a s => (Returned a, s).

#[global] Instance M_bind : MBind M := fun A B f m s =>
  match m s with
  | (Returned a, s') => f a s'
  | (Raised e, s') => (Raised e, s')
  end.

Definition raise {A} (e : exn) : M A := fun s => (Raised e, s).

Definition lift {A} (o : outcome A) : M A := fun s => (o, s).

Definition emit (e : event) : M unit := fun s =>
  (Returned tt, {| fs := fs s; trace := trace s ++ [e] |}).

(** [print(text)] *)
Definition print (text : string) : M unit := emit (EPrint text).

(** [try: body  except json.JSONDecodeError as e: handler(str(e))] *)
Definition try_except_JSONDecodeError {A} (body : M A) (handler : string -> M A) : M A :=
  fun s =>
    match body s with
    | (Raised (JSONDecodeError msg), s') => handler msg s'
    | r => r
    end.

(** [async with AsyncWebCrawler(config=config) as crawler: body].  When
    the browser does not start, the exception leaves the statement and the
    body is not run; otherwise [__aexit__] closes the browser when the body
    is left, by its end, by [return] or by an exception, which it lets
    through. *)
Definition async_with_AsyncWebCrawler {A} (w : World) (config : BrowserConfig)
    (body : M A) : M A :=
  emit (ELaunch config) ;;
  match launch w config with
  | Some e => raise e
  | None => fun s => let (r, s') := body s in (r, (emit EClose s').2)
  end.

(** [await crawler.arun(url=url, config=config)] *)
Definition crawler_arun (w : World) (url : string) (config : CrawlerRunConfig)
  : M CrawlResult :=
  emit (EArun url config) ;; lift (arun w url config).

(** [with open(path, "w") as f: f.write(text)] *)
Definition write_file (w : World) (path text : string) : M unit :=
  match open_w w path with
  | Some e => raise e
  | None => fun s => (Returned tt, {| fs := <[path := text]> (fs s); trace := trace s |})
  end.

(** [for i, x in enumerate(items, start): body(i, x)] *)
Fixpoint for_enumerate (items : list pyval) (start : nat) (body : nat -> pyval -> M unit)
  : M unit :=
  match items with
  | [] => mret tt
  | x :: rest => body start x ;; for_enumerate rest (S start) body
  end.

(** How the interpreter ends a script whose entry point ended with [o]. *)
Definition exit_code {A} (o : outcome A) : Z :=
  match o with
  | Returned _ => 0
  | Raised (SystemExit code) => code
  | Raised _ => 1
  end.

(** ** scrape.py *)

Module Scrape.

Definition browser_config : BrowserConfig :=
  {| headless := true; verbose := false |}.

Definition run_config : CrawlerRunConfig :=
  {| extraction_strategy := None;
     cache_mode := BYPASS;
     wait_until := "networkidle";
     delay_before_return_html := 2;
     js_code := None |}.

(** [result.markdown or ""] *)
Definition markdown_content (result : CrawlResult) : string :=
  match markdown result with
  | Some m => if PyStr.truthy m then m else ""
  | None => ""
  end.

(** The file name derived from a network location (lines 33-34). *)
Definition default_output_file (netloc : string) : string :=
  PyStr.replace "." "_" netloc +:+ ".md".

(** [urlparse(url).netloc.replace(".", "_")] with [".md"] appended. *)
Definition derived_output_file (w : World) (url : string) : outcome string :=
  match Url.netloc (check_bracketed_host w) url with
  | Returned domain => Returned (default_output_file domain)
  | Raised e => Raised e
  end.

(** The output path: [output_file] when given and not empty, otherwise
    derived from the URL (lines 32-34). *)
Definition output_path (w : World) (url : string) (output_file : option string)
  : outcome string :=
  match output_file with
  | Some f => if PyStr.truthy f then Returned f else derived_output_file w url
  | None => derived_output_file w url
  end.

(** Lines 24-46: the body of the [async with] statement. *)
Definition crawl_and_save (w : World) (url : string) (output_file : option string)
  : M (option string) :=
  print ("Scraping: " +:+ url) ;;
  result ← crawler_arun w url run_config;
  if success result then
    let markdown_content := markdown_content result in
    output_file ← lift (output_path w url output_file);
    write_file w output_file markdown_content ;;
    print ("Success! Saved to " +:+ output_file) ;;
    print ("Content length: " +:+ PyStr.of_nat (String.length markdown_content)
           +:+ " characters") ;;
    mret (Some markdown_content)
  else
    print ("Failed: " +:+ Py.str_opt (error_message result)) ;;
    mret None.

Definition scrape_to_markdown (w : World) (url : string) (output_file : option string)
  : M (option string) :=
  async_with_AsyncWebCrawler w browser_config (crawl_and_save w url output_file).

Definition main (w : World) (argv : list string) : M unit :=
  if (length argv <? 2)%nat then
    print "Usage: python scrape.py <url> [output_file]" ;;
    print "Example: python scrape.py https://example.com" ;;
    print "Example: python scrape.py https://example.com output.md" ;;
    raise (SystemExit 1)
  else
    let url := nth 1 argv "" in
    let output_file := if (2 <? length argv)%nat then Some (nth 2 argv "") else None in
    scrape_to_markdown w url output_file ;;
    mret tt.

End Scrape.

(** ** scrape_reddit.py *)

Module ScrapeReddit.
Import PyStr.

Definition RedditPost : list FieldDecl :=
  [ {| field_name := "title"; field_required := true |};
    {| field_name := "author"; field_required := true |};
    {| field_name := "upvotes"; field_required := false |};
    {| field_name := "comments_count"; field_required := false |};
    {| field_name := "post_url"; field_required := false |};
    {| field_name := "content_preview"; field_required := false |};
    {| field_name := "time_posted"; field_required := false |} ].

Definition RedditPosts : ListModelDecl :=
  {| list_field := "posts"; item_fields := RedditPost |}.

Definition browser_config : BrowserConfig :=
  {| headless := false;  (* Show browser window for debugging *)
     verbose := true |}.

Definition llm_config_of (gemini_api_key : string) : LLMConfig :=
  {| provider := "gemini/gemini-2.5-flash"; api_token := gemini_api_key |}.

Definition q : string := String dquote "".

Definition instruction_text : string :=
  nl +:+
  "        Extract all Reddit posts visible on this page. For each post, extract:" +:+ nl +:+
  "        - title: The title of the post" +:+ nl +:+
  "        - author: The username of the post author (without u/ prefix)" +:+ nl +:+
  "        - upvotes: The upvote count (can be a number or text like " +:+ q +:+ "Vote" +:+ q +:+ ")" +:+ nl +:+
  "        - comments_count: Number of comments" +:+ nl +:+
  "        - post_url: The relative URL to the post (starts with /r/internship/comments/...)" +:+ nl +:+
  "        - content_preview: Any preview text shown for the post" +:+ nl +:+
  "        - time_posted: When the post was made (e.g., " +:+ q +:+ "2 hours ago" +:+ q +:+ ", "
    +:+ q +:+ "1 day ago" +:+ q +:+ ")" +:+ nl +:+
  nl +:+
  "        Return all posts you can find on the page." +:+ nl +:+
  "        ".

Definition extraction_strategy_of (gemini_api_key : string) : LLMExtractionStrategy :=
  {| llm_config := llm_config_of gemini_api_key;
     schema := RedditPosts;
     extraction_type := "schema";
     instruction := instruction_text |}.

Definition js_code_text : string :=
  nl +:+
  "    // Scroll to top first to ensure we see newest posts" +:+ nl +:+
  "    window.scrollTo(0, 0);" +:+ nl +:+
  "    await new Promise(r => setTimeout(r, 1000));" +:+ nl +:+
  nl +:+
  "    // Scroll down slowly to trigger lazy loading" +:+ nl +:+
  "    for (let i = 0; i < 3; i++) {" +:+ nl +:+
  "        window.scrollBy(0, 500);" +:+ nl +:+
  "        await new Promise(r => setTimeout(r, 1000));" +:+ nl +:+
  "    }" +:+ nl +:+
  nl +:+
  "    // Scroll back to top" +:+ nl +:+
  "    window.scrollTo(0, 0);" +:+ nl +:+
  "    await new Promise(r => setTimeout(r, 500));" +:+ nl +:+
  "    ".

Definition run_config_of (gemini_api_key : string) : CrawlerRunConfig :=
  {| extraction_strategy := Some (extraction_strategy_of gemini_api_key);
     cache_mode := BYPASS;
     wait_until := "networkidle";
     delay_before_return_html := 5;  (* Wait longer for dynamic content *)
     js_code := Some js_code_text |}.

Definition target_url : string := "https://www.reddit.com/r/internships/new/".

(** Lines 105-109: handle both list and dict formats. *)
Definition normalize_posts (data : pyval) : outcome pyval :=
  match data with
  | PyList _ => Returned data
  | _ => Py.get data "posts" (PyList [])
  end.

(** The field line [print(f"<label>: {post.get(key, 'N/A')}")]. *)
Definition print_field (label key : string) (post : pyval) : M unit :=
  v ← lift (Py.get post key (PyStr "N/A"));
  print (label +:+ ": " +:+ Py.str v).

(** Lines 114-122: the body of the display loop. *)
Definition display_post (w : World) (i : nat) (post : pyval) : M unit :=
  print ("--- Post " +:+ of_nat i +:+ " ---") ;;
  print_field "Title" "title" post ;;
  print_field "Author" "author" post ;;
  print_field "Upvotes" "upvotes" post ;;
  print_field "Comments" "comments_count" post ;;
  print_field "Posted" "time_posted" post ;;
  preview ← lift (Py.get post "content_preview" PyNone);
  (if Py.truthy preview then
     preview ← lift (Py.get post "content_preview" PyNone);
     shown ← lift (Py.slice_to (hashable_slices w) 100 preview);
     print ("Preview: " +:+ Py.str shown +:+ "...")
   else mret tt) ;;
  print "".

(** Lines 103-127: the body of the [try] statement. *)
Definition parse_display_save (w : World) (content : string) : M unit :=
  data ← lift (json_loads w content);
  posts ← lift (normalize_posts data);
  n ← lift (Py.len posts);
  print (nl +:+ "Extracted " +:+ of_nat n +:+ " posts:" +:+ nl) ;;
  items ← lift (Py.iter posts);
  for_enumerate items 1 (display_post w) ;;
  write_file w "reddit_posts.json" (Json.dumps_indent2 (PyDict [("posts", posts)])) ;;
  print "Data saved to reddit_posts.json".

(** [result.markdown[:1000] if result.markdown else 'No markdown'] *)
Definition markdown_head (result : CrawlResult) : string :=
  match markdown result with
  | Some m => if PyStr.truthy m then take 1000 m else "No markdown"
  | None => "No markdown"
  end.

(** [if result.extracted_content:] with the content at hand when it holds. *)
Definition nonempty_content (result : CrawlResult) : option string :=
  match extracted_content result with
  | Some c => if PyStr.truthy c then Some c else None
  | None => None
  end.

(** Lines 129-131: the handler of [json.JSONDecodeError]. *)
Definition report_parse_error (content e : string) : M unit :=
  print ("Error parsing extracted content: " +:+ e) ;;
  print ("Raw content: " +:+ take 500 content).

(** Lines 90-136: the body of the [async with] statement. *)
Definition crawl_and_extract (w : World) (gemini_api_key : string) : M unit :=
  print "Crawling r/internships..." ;;
  result ← crawler_arun w target_url (run_config_of gemini_api_key);
  if success result then
    print (nl +:+ "Crawl successful!") ;;
    print ("Status code: " +:+ Py.str_opt_Z (status_code result)) ;;
    match nonempty_content result with
    | Some content =>
        try_except_JSONDecodeError
          (parse_display_save w content)
          (report_parse_error content)
    | None =>
        print "No content extracted by LLM" ;;
        print ("Raw markdown (first 1000 chars):" +:+ nl +:+ markdown_head result)
    end
  else
    print ("Crawl failed: " +:+ Py.str_opt (error_message result)).

Definition credential_missing : exn :=
  ValueError
    "GEMINI_API_KEY not found in environment variables. Please set it in .env file.".

Definition scrape_reddit_internship (w : World) : M unit :=
  match getenv w "GEMINI_API_KEY" with
  | None => raise credential_missing
  | Some gemini_api_key =>
      if negb (PyStr.truthy gemini_api_key) then raise credential_missing
      else async_with_AsyncWebCrawler w browser_config
             (crawl_and_extract w gemini_api_key)
  end.

End ScrapeReddit.

(** A run starts with nothing printed and nothing done yet. *)
Definition start (files : gmap string string) : state :=
  {| fs := files; trace := [] |}.

(** ** Concrete worlds, for running the scripts on explicit inputs *)

Module Demo.

Definition page : CrawlResult :=
  {| success := true; status_code := Some 200;
     markdown := Some "# Example Domain"; extracted_content := None;
     error_message := None |}.

Definition empty_page : CrawlResult :=
  {| success := true; status_code := Some 200;
     markdown := Some ""; extracted_content := None;
     error_message := None |}.

Definition failed : CrawlResult :=
  {| success := false; status_code := None;
     markdown := None; extracted_content := None;
     error_message := Some "net::ERR_NAME_NOT_RESOLVED" |}.

(** A page for which the model answered [content]. *)
Definition extracted (content : string) : CrawlResult :=
  {| success := true; status_code := Some 200;
     markdown := Some "# r/internships"; extracted_content := Some content;
     error_message := None |}.

Definition quoted (text : string) : string :=
  String PyStr.dquote (text +:+ String PyStr.dquote "").

(** The model answer of the second end-to-end scenario, and its value. *)
Definition one_post_text : string :=
  "{" +:+ quoted "posts" +:+ ": [{" +:+ quoted "title" +:+ ": " +:+ quoted "A"
      +:+ ", " +:+ quoted "author" +:+ ": " +:+ quoted "B" +:+ "}]}".

Definition one_post : pyval :=
  PyDict [("posts", PyList [PyDict [("title", PyStr "A"); ("author", PyStr "B")]])].

(** [json.loads] on the model answers used below: the four texts that
    parse, and [not json], which does not; the last line stands for every
    other text and is not used. *)
Definition loads (text : string) : outcome pyval :=
  if String.eqb text one_post_text then Returned one_post
  else if String.eqb text "[1, 2]" then Returned (PyList [PyInt 1; PyInt 2])
  else if String.eqb text "42" then Returned (PyInt 42)
  else if String.eqb text "{}" then Returned (PyDict [])
  else if String.eqb text "not json"
  then Raised (JSONDecodeError "Expecting value: line 1 column 1 (char 0)")
  else Raised (JSONDecodeError "").

(** The world in which the credential is [key] (if any), the browser
    starts, every crawl returns [r] and every file can be opened. *)
Definition world (key : option string) (r : CrawlResult) : World :=
  {| getenv := fun name => if String.eqb name "GEMINI_API_KEY" then key else None;
     launch := fun _ => None;
     arun := fun _ _ => Returned r;
     json_loads := loads;
     open_w := fun _ => None;
     check_bracketed_host := fun _ => None;
     hashable_slices := true |}.

(** The same world, except that the crawl raises: a navigation failure. *)
Definition navigation_fails (w : World) : World :=
  {| getenv := getenv w; launch := launch w;
     arun := fun _ _ => Raised (ExternalError "Timeout 30000ms exceeded");
     json_loads := json_loads w; open_w := open_w w;
     check_bracketed_host := check_bracketed_host w;
     hashable_slices := hashable_slices w |}.

(** The same world, except that no file can be opened: a persistence
    failure. *)
Definition read_only (w : World) : World :=
  {| getenv := getenv w; launch := launch w; arun := arun w;
     json_loads := json_loads w;
     open_w := fun _ => Some (OSError "[Errno 13] Permission denied");
     check_bracketed_host := check_bracketed_host w;
     hashable_slices := hashable_slices w |}.

End Demo.

(** * The vocabulary of the statements *)

Definition is_close (e : event) : bool :=
  match e with EClose => true | _ => false end.

Definition is_launch (e : event) : bool :=
  match e with ELaunch _ => true | _ => false end.

(** Events that touch the browser or the network. *)
Definition is_browser_event (e : event) : bool :=
  match e with EPrint _ => false | _ => true end.

(** How often the browser session was released. *)
Definition releases (tr : list event) : nat := length (filter is_close tr).

(** The lines printed, in order. *)
Definition printed (tr : list event) : list string :=
  omap (fun e => match e with EPrint t => Some t | _ => None end) tr.

(** An event of the body of either script: a printed line or the crawl. *)
Definition body_event (e : event) : Prop :=
  is_launch e = false /\ is_close e = false.

(** The credential check of [scrape_reddit_internship] passed with [key]. *)
Definition credential (w : World) (key : string) : Prop :=
  getenv w "GEMINI_API_KEY" = Some key /\ PyStr.truthy key = true.

(** The session was released once more than before the run, and the
    release is the last thing the run did. *)
Definition released_once (s s' : state) : Prop :=
  releases (trace s') = S (releases (trace s)) /\ last (trace s') = Some EClose.

Definition usage : list string :=
  [ "Usage: python scrape.py <url> [output_file]";
    "Example: python scrape.py https://example.com";
    "Example: python scrape.py https://example.com output.md" ].

(** The file name the specification describes: the dots of the URL's
    host replaced by underscores, with [.md] appended. *)
Definition spec_default_output_file (url : string) : string :=
  PyStr.replace "." "_" (Url.host (Url.split_netloc url)) +:+ ".md".

(** A preview the loop can show: one it skips, or text or a list it can
    cut to its first hundred items. *)
Definition preview_ok (v : pyval) : bool :=
  negb (Py.truthy v) || match v with PyStr _ | PyList _ => true | _ => false end.

(** A record the loop can display: a mapping with such a preview. *)
Definition post_ok (post : pyval) : bool :=
  match post with
  | PyDict d => preview_ok (Py.dict_get d "content_preview" PyNone)
  | _ => false
  end.

(** Records the loop passes over without an exception. *)
Definition displayable (posts : pyval) : bool :=
  match Py.iter posts with
  | Returned items => forallb post_ok items
  | Raised _ => false
  end.

(** The exceptions a parsed answer of an unexpected shape can raise. *)
Definition shape_error (e : exn) : Prop :=
  e = AttributeError \/ e = TypeError \/ e = KeyError.

(** A state reached from [s] by printing only. *)
Definition printed_from (s s' : state) : Prop :=
  exists lines, s' = {| fs := fs s; trace := trace s ++ (EPrint <$> lines) |}.

(** The run got as far as a model answer: the credential check passed,
    the browser started, the crawl succeeded with result [r], and its
    extracted content is the non-empty text [content]. *)
Definition answered (w : World) (key : string) (r : CrawlResult) (content : string) : Prop :=
  credential w key /\
  launch w ScrapeReddit.browser_config = None /\
  arun w ScrapeReddit.target_url (ScrapeReddit.run_config_of key) = Returned r /\
  success r = true /\
  ScrapeReddit.nonempty_content r = Some content.

(** Some file holds text after the run that it did not hold before. *)
Definition wrote_a_file (s s' : state) : Prop :=
  exists path text, fs s' !! path = Some text /\ fs s !! path <> Some text.

(** Every browser launch recorded in a trace is headless. *)
Definition launches_headless (tr : list event) : Prop :=
  forall config, ELaunch config ∈ tr -> headless config = true.

(** [appends ok m]: whatever the state, [m] extends the trace by events
    that all satisfy [ok] and leaves the earlier trace alone. *)
Definition appends (ok : event -> Prop) {A} (m : M A) : Prop :=
  forall s, exists evs, trace (m s).2 = trace s ++ evs /\ Forall ok evs.

(** What a computation did from [s] on, when it only printed and at
    most saved the records: the lines it added to the trace, and either
    the files as they were or, with a normal end, [reddit_posts.json]
    holding the dump of some records. *)
Definition printed_and_maybe_saved (s : state) (res : outcome unit * state) : Prop :=
  exists lines,
    trace res.2 = trace s ++ (EPrint <$> lines)
    /\ (fs res.2 = fs s
        \/ (res.1 = Returned tt /\
            exists posts,
              fs res.2 = <["reddit_posts.json" :=
                             Json.dumps_indent2 (PyDict [("posts", posts)])]> (fs s))).

(** Two states that show the same to the user: the same files and the
    same printed lines. *)
Definition same_view (s1 s2 : state) : Prop :=
  fs s1 = fs s2 /\ printed (trace s1) = printed (trace s2).

(** Two computations that end alike and keep the views alike. *)
Definition alike {A} (m1 m2 : M A) : Prop :=
  forall s1 s2, same_view s1 s2 ->
    (m1 s1).1 = (m2 s2).1 /\ same_view (m1 s1).2 (m2 s2).2.

(** Two worlds that give the credentials [key1] and [key2] and otherwise
    answer alike, the crawl included. *)
Definition same_but_credential (w1 w2 : World) (key1 key2 : string) : Prop :=
  credential w1 key1 /\ credential w2 key2
  /\ launch w1 ScrapeReddit.browser_config = launch w2 ScrapeReddit.browser_config
  /\ arun w1 ScrapeReddit.target_url (ScrapeReddit.run_config_of key1)
     = arun w2 ScrapeReddit.target_url (ScrapeReddit.run_config_of key2)
  /\ (forall text, json_loads w1 text = json_loads w2 text)
  /\ (forall path, open_w w1 path = open_w w2 path)
  /\ hashable_slices w1 = hashable_slices w2.

(** The world [w], except that the browser does not start. *)
Definition browser_missing (w : World) : World :=
  {| getenv := getenv w;
     launch := fun _ => Some (ExternalError "Executable doesn't exist");
     arun := arun w; json_loads := json_loads w; open_w := open_w w;
     check_bracketed_host := check_bracketed_host w;
     hashable_slices := hashable_slices w |}.

(** * Reasoning about runs *)

(** ** Observations of a trace *)

Lemma releases_app tr1 tr2 : releases (tr1 ++ tr2) = (releases tr1 + releases tr2)%nat.
Proof. unfold releases. by rewrite filter_app, length_app. Qed.

Lemma releases_none tr : Forall (fun e => is_close e = false) tr -> releases tr = 0%nat.
Proof.
  unfold releases. induction 1 as [|e tr He _ IH]; [done|].
  rewrite filter_cons. destruct (decide (is_close e)) as [Hc|_]; [|done].
  rewrite He in Hc. done.
Qed.

(** ** Computations that only append events of a given kind *)

Section Appends.
Variable ok : event -> Prop.

Lemma appends_ret {A} (a : A) : appends ok (mret a).
Proof. intros s. exists []. by rewrite app_nil_r. Qed.

Lemma appends_raise {A} (e : exn) : appends ok (raise (A:=A) e).
Proof. intros s. exists []. by rewrite app_nil_r. Qed.

Lemma appends_lift {A} (o : outcome A) : appends ok (lift o).
Proof. intros s. exists []. by rewrite app_nil_r. Qed.

Lemma appends_emit e : ok e -> appends ok (emit e).
Proof. intros He s. exists [e]. split; [done|]. by constructor. Qed.

Lemma appends_bind {A B} (m : M A) (f : A -> M B) :
  appends ok m -> (forall a, appends ok (f a)) -> appends ok (m ≫= f).
Proof.
  intros Hm Hf s. unfold mbind, M_bind.
  destruct (Hm s) as (evs1 & E1 & F1).
  destruct (m s) as [[a|e] s1]; simpl in *.
  - destruct (Hf a s1) as (evs2 & E2 & F2).
    exists (evs1 ++ evs2). rewrite E2, E1, app_assoc. split; [done|].
    by apply Forall_app.
  - by exists evs1.
Qed.

Lemma appends_try_except {A} (body : M A) handler :
  appends ok body -> (forall msg, appends ok (handler msg)) ->
  appends ok (try_except_JSONDecodeError body handler).
Proof.
  intros Hb Hh s. unfold try_except_JSONDecodeError.
  destruct (Hb s) as (evs1 & E1 & F1).
  destruct (body s) as [[a|e] s1]; simpl in *; [by exists evs1|].
  destruct e; try by exists evs1.
  destruct (Hh msg s1) as (evs2 & E2 & F2).
  exists (evs1 ++ evs2). rewrite E2, E1, app_assoc. split; [done|].
  by apply Forall_app.
Qed.

Lemma appends_write_file w path text : appends ok (write_file w path text).
Proof.
  unfold write_file. destruct (open_w w path); [apply appends_raise|].
  intros s. exists []. by rewrite app_nil_r.
Qed.

Lemma appends_for_enumerate items start body :
  (forall i x, appends ok (body i x)) -> appends ok (for_enumerate items start body).
Proof.
  intros Hb. revert start.
  induction items as [|x items IH]; intros start; simpl.
  - apply appends_ret.
  - apply appends_bind; [apply Hb | intros _; apply IH].
Qed.

Lemma appends_crawler_arun w url config :
  ok (EArun url config) -> appends ok (crawler_arun w url config).
Proof.
  intros H. apply appends_bind; [by apply appends_emit | intros _; apply appends_lift].
Qed.

Lemma appends_print text : ok (EPrint text) -> appends ok (print text).
Proof. apply appends_emit. Qed.

End Appends.

(** The trace of an [async with] statement: the launch, then, when the
    browser started, the events of the body and the release. *)
Lemma async_with_trace (ok : event -> Prop) {A} w config (body : M A) :
  appends ok body ->
  forall s, exists evs,
    Forall ok evs /\
    trace (async_with_AsyncWebCrawler w config body s).2 =
      trace s ++ ELaunch config ::
        match launch w config with None => evs ++ [EClose] | Some _ => [] end.
Proof.
  intros Hb s. unfold async_with_AsyncWebCrawler, mbind, M_bind, emit. simpl.
  destruct (launch w config) as [e|].
  - exists []. by split.
  - destruct (Hb {| fs := fs s; trace := trace s ++ [ELaunch config] |})
      as (evs & E & F).
    exists evs. split; [done|].
    destruct (body _) as [r s1]. simpl in *.
    rewrite E. by rewrite <- !app_assoc.
Qed.

Ltac appends_step :=
  first
    [ apply appends_ret | apply appends_raise | apply appends_lift
    | apply appends_write_file
    | apply appends_print; done
    | apply appends_crawler_arun; done
    | apply appends_bind; [|intros ?]
    | apply appends_try_except; [|intros ?]
    | apply appends_for_enumerate; intros ? ?
    | match goal with
      | |- appends _ (if ?b then _ else _) => destruct b
      | |- appends _ (match ?x with _ => _ end) => destruct x
      end ].

Lemma display_post_appends w i post : appends body_event (ScrapeReddit.display_post w i post).
Proof.
  unfold ScrapeReddit.display_post, ScrapeReddit.print_field. repeat appends_step.
Qed.

Lemma crawl_and_save_appends w url output_file :
  appends body_event (Scrape.crawl_and_save w url output_file).
Proof. unfold Scrape.crawl_and_save. repeat appends_step. Qed.

Lemma crawl_and_extract_appends w key :
  appends body_event (ScrapeReddit.crawl_and_extract w key).
Proof.
  unfold ScrapeReddit.crawl_and_extract, ScrapeReddit.parse_display_save,
    ScrapeReddit.report_parse_error.
  repeat appends_step.
Qed.

(** ** The events of a whole run of each entry point *)

Lemma scrape_to_markdown_trace w url output_file s :
  exists evs,
    Forall body_event evs /\
    trace (Scrape.scrape_to_markdown w url output_file s).2 =
      trace s ++ ELaunch Scrape.browser_config ::
        match launch w Scrape.browser_config with
        | None => evs ++ [EClose]
        | Some _ => []
        end.
Proof. apply async_with_trace, crawl_and_save_appends. Qed.

Lemma scrape_reddit_with_credential w key s :
  credential w key ->
  ScrapeReddit.scrape_reddit_internship w s =
    async_with_AsyncWebCrawler w ScrapeReddit.browser_config
      (ScrapeReddit.crawl_and_extract w key) s.
Proof.
  intros [Hk Ht]. unfold ScrapeReddit.scrape_reddit_internship.
  by rewrite Hk, Ht.
Qed.

Lemma scrape_reddit_without_credential w s :
  (forall key, ~ credential w key) ->
  ScrapeReddit.scrape_reddit_internship w s =
    (Raised ScrapeReddit.credential_missing, s).
Proof.
  intros Hno. unfold ScrapeReddit.scrape_reddit_internship.
  destruct (getenv w "GEMINI_API_KEY") as [key|] eqn:Hk; [|done].
  destruct (PyStr.truthy key) eqn:Ht; [|done].
  by destruct (Hno key).
Qed.

Lemma scrape_reddit_trace w key s :
  credential w key ->
  exists evs,
    Forall body_event evs /\
    trace (ScrapeReddit.scrape_reddit_internship w s).2 =
      trace s ++ ELaunch ScrapeReddit.browser_config ::
        match launch w ScrapeReddit.browser_config with
        | None => evs ++ [EClose]
        | Some _ => []
        end.
Proof.
  intros Hc. rewrite (scrape_reddit_with_credential _ _ _ Hc).
  apply async_with_trace, crawl_and_extract_appends.
Qed.

Lemma credential_dec w : (exists key, credential w key) \/ (forall key, ~ credential w key).
Proof.
  unfold credential.
  destruct (getenv w "GEMINI_API_KEY") as [key|]; [|right; intros key [? _]; done].
  destruct (PyStr.truthy key) eqn:Ht; [left; by exists key|].
  right. intros key' [[= <-] Ht']. congruence.
Qed.

Lemma released_once_intro s s' config evs :
  Forall body_event evs ->
  trace s' = trace s ++ ELaunch config :: evs ++ [EClose] ->
  released_once s s'.
Proof.
  intros F E. split.
  - rewrite E, releases_app. change (ELaunch config :: evs ++ [EClose])
      with ([ELaunch config] ++ evs ++ [EClose]).
    rewrite !releases_app, (releases_none evs).
    + simpl. unfold releases. simpl. lia.
    + eapply Forall_impl; [exact F|]. by intros e [_ ?].
  - rewrite E. change (ELaunch config :: evs ++ [EClose])
      with ((ELaunch config :: evs) ++ [EClose]).
    rewrite app_assoc. apply last_snoc.
Qed.

Lemma scrape_released_once w url output_file s :
  launch w Scrape.browser_config = None ->
  released_once s (Scrape.scrape_to_markdown w url output_file s).2.
Proof.
  intros Hl.
  destruct (scrape_to_markdown_trace w url output_file s) as (evs & F & E).
  rewrite Hl in E. by eapply released_once_intro.
Qed.

Lemma scrape_reddit_released_once w key s :
  launch w ScrapeReddit.browser_config = None ->
  credential w key ->
  released_once s (ScrapeReddit.scrape_reddit_internship w s).2.
Proof.
  intros Hl Hc.
  destruct (scrape_reddit_trace w key s Hc) as (evs & F & E).
  rewrite Hl in E. by eapply released_once_intro.
Qed.

(** C4.  Once the browser session of a run has been acquired, every way
    the run can end -- the crawl raising or reporting failure, the
    extraction or its display raising, the output file not opening, or
    success -- leaves the trace with exactly one release more than before,
    and that release is the last event before control returns.  The
    statement holds for every world, hence for every outcome of every
    external call of [scrape_to_markdown] and [scrape_reddit_internship]. *)
Theorem browser_released_exactly_once (w : World) (s : state) :
  (launch w Scrape.browser_config = None ->
   forall url output_file,
     released_once s (Scrape.scrape_to_markdown w url output_file s).2)
  /\
  (launch w ScrapeReddit.browser_config = None ->
   forall key, credential w key ->
     released_once s (ScrapeReddit.scrape_reddit_internship w s).2).
Proof.
  split.
  - intros Hl url output_file. by apply scrape_released_once.
  - intros Hl key Hc. by eapply scrape_reddit_released_once.
Qed.

Lemma browser_released_exactly_once_witness :
  let s := start ∅ in
  let ok := Demo.world (Some "secret") (Demo.extracted Demo.one_post_text) in
  let bad_json := Demo.world (Some "secret") (Demo.extracted "not json") in
  let bad_shape := Demo.world (Some "secret") (Demo.extracted "[1, 2]") in
  released_once s (Scrape.scrape_to_markdown ok "https://example.com" None s).2
  /\ released_once s
       (Scrape.scrape_to_markdown (Demo.navigation_fails ok) "https://example.com" None s).2
  /\ released_once s
       (Scrape.scrape_to_markdown (Demo.read_only ok) "https://example.com" None s).2
  /\ released_once s (ScrapeReddit.scrape_reddit_internship ok s).2
  /\ released_once s (ScrapeReddit.scrape_reddit_internship (Demo.navigation_fails ok) s).2
  /\ released_once s (ScrapeReddit.scrape_reddit_internship bad_json s).2
  /\ released_once s (ScrapeReddit.scrape_reddit_internship bad_shape s).2
  /\ released_once s (ScrapeReddit.scrape_reddit_internship (Demo.read_only ok) s).2.
Proof.
  intros s ok bad_json bad_shape.
  pose proof (fun w => proj1 (browser_released_exactly_once w s)) as scrape.
  pose proof (fun w => proj2 (browser_released_exactly_once w s)) as reddit.
  split; [exact (scrape ok eq_refl _ _)|].
  split; [exact (scrape (Demo.navigation_fails ok) eq_refl _ _)|].
  split; [exact (scrape (Demo.read_only ok) eq_refl _ _)|].
  split; [exact (reddit ok eq_refl "secret" (conj eq_refl eq_refl))|].
  split; [exact (reddit (Demo.navigation_fails ok) eq_refl "secret" (conj eq_refl eq_refl))|].
  split; [exact (reddit bad_json eq_refl "secret" (conj eq_refl eq_refl))|].
  split; [exact (reddit bad_shape eq_refl "secret" (conj eq_refl eq_refl))|].
  exact (reddit (Demo.read_only ok) eq_refl "secret" (conj eq_refl eq_refl)).
Defined.

(** X8.  When no session is acquired (the browser does not start, or the
    credential check fails first), nothing is released. *)
Lemma no_session_no_release (w : World) (s : state) :
  (forall e url output_file, launch w Scrape.browser_config = Some e ->
     releases (trace (Scrape.scrape_to_markdown w url output_file s).2)
       = releases (trace s))
  /\
  ((forall key, ~ credential w key) \/ is_Some (launch w ScrapeReddit.browser_config) ->
     releases (trace (ScrapeReddit.scrape_reddit_internship w s).2)
       = releases (trace s)).
Proof.
  split.
  - intros e url output_file Hl.
    destruct (scrape_to_markdown_trace w url output_file s) as (evs & F & E).
    rewrite Hl in E. rewrite E, releases_app. unfold releases at 2. simpl. lia.
  - intros [Hno|[e Hl]].
    + by rewrite scrape_reddit_without_credential.
    + destruct (credential_dec w) as [[key Hc]|Hno].
      * destruct (scrape_reddit_trace w key s Hc) as (evs & F & E).
        rewrite Hl in E. rewrite E, releases_app. unfold releases at 2. simpl. lia.
      * by rewrite scrape_reddit_without_credential.
Qed.

Lemma no_session_no_release_witness :
  releases (trace (Scrape.scrape_to_markdown
                     (browser_missing (Demo.world None Demo.page))
                     "https://example.com" None (start ∅)).2) = 0%nat
  /\ releases (trace (ScrapeReddit.scrape_reddit_internship
                        (Demo.world None Demo.page) (start ∅)).2) = 0%nat.
Proof.
  split.
  - exact (proj1 (no_session_no_release
                    (browser_missing (Demo.world None Demo.page)) (start ∅))
             (ExternalError "Executable doesn't exist") "https://example.com" None
             eq_refl).
  - refine (proj2 (no_session_no_release (Demo.world None Demo.page) (start ∅))
              (or_introl _)).
    intros key [Hk _]. discriminate Hk.
Defined.

(** ** Running [scrape_to_markdown] *)

Lemma async_with_run {A} w config (body : M A) s :
  launch w config = None ->
  async_with_AsyncWebCrawler w config body s =
    let r := body {| fs := fs s; trace := trace s ++ [ELaunch config] |} in
    (r.1, {| fs := fs r.2; trace := trace r.2 ++ [EClose] |}).
Proof.
  intros Hl. unfold async_with_AsyncWebCrawler, mbind, M_bind, emit. simpl.
  rewrite Hl. by destruct (body _).
Qed.

(** The whole run, once the browser has started and the crawl has returned
    a result: what is returned or raised, the files, and the trace. *)
Lemma scrape_to_markdown_run w url output_file s r :
  launch w Scrape.browser_config = None ->
  arun w url Scrape.run_config = Returned r ->
  Scrape.scrape_to_markdown w url output_file s =
    let crawl := [ELaunch Scrape.browser_config; EPrint ("Scraping: " +:+ url);
                  EArun url Scrape.run_config] in
    let text := Scrape.markdown_content r in
    if success r then
      match Scrape.output_path w url output_file with
      | Raised e =>
          (Raised e, {| fs := fs s; trace := trace s ++ crawl ++ [EClose] |})
      | Returned path =>
          match open_w w path with
          | Some e =>
              (Raised e, {| fs := fs s; trace := trace s ++ crawl ++ [EClose] |})
          | None =>
              (Returned (Some text),
               {| fs := <[path := text]> (fs s);
                  trace := trace s ++ crawl ++
                    [EPrint ("Success! Saved to " +:+ path);
                     EPrint ("Content length: " +:+ PyStr.of_nat (String.length text)
                             +:+ " characters");
                     EClose] |})
          end
      end
    else
      (Returned None,
       {| fs := fs s;
          trace := trace s ++ crawl ++
            [EPrint ("Failed: " +:+ Py.str_opt (error_message r)); EClose] |}).
Proof.
  intros Hl Ha. unfold Scrape.scrape_to_markdown.
  rewrite (async_with_run _ _ _ _ Hl).
  unfold Scrape.crawl_and_save, crawler_arun, print, emit, lift, write_file,
    mbind, mret, M_bind, M_ret.
  simpl. rewrite Ha. simpl.
  destruct (success r); simpl.
  - destruct (Scrape.output_path w url output_file) as [path|e]; simpl.
    + destruct (open_w w path); simpl; by rewrite <- ?app_assoc.
    + by rewrite <- ?app_assoc.
  - by rewrite <- ?app_assoc.
Qed.

(** ** scrape.py: the claims *)

(** C10.  When the crawl reports failure, [scrape_to_markdown] returns
    [None] and leaves the file system as it was; when it reports success
    (and the output file can be opened), it returns the very markdown
    string it wrote to that file. *)
Theorem failed_crawl_writes_nothing w url output_file s r :
  launch w Scrape.browser_config = None ->
  arun w url Scrape.run_config = Returned r ->
  let run := Scrape.scrape_to_markdown w url output_file s in
  (success r = false -> run.1 = Returned None /\ fs run.2 = fs s)
  /\
  (success r = true ->
   forall path,
     Scrape.output_path w url output_file = Returned path ->
     open_w w path = None ->
     run.1 = Returned (Some (Scrape.markdown_content r)) /\
     fs run.2 = <[path := Scrape.markdown_content r]> (fs s)).
Proof.
  intros Hl Ha run. subst run.
  rewrite (scrape_to_markdown_run _ _ _ _ _ Hl Ha). cbv zeta.
  split.
  - intros ->. by split.
  - intros -> path -> ->. by split.
Qed.

Lemma failed_crawl_writes_nothing_witness :
  let run_failed :=
    Scrape.scrape_to_markdown (Demo.world None Demo.failed)
      "https://example.com" None (start ∅) in
  let run_page :=
    Scrape.scrape_to_markdown (Demo.world None Demo.page)
      "https://example.com" None (start ∅) in
  (run_failed.1 = Returned None /\ fs run_failed.2 = ∅)
  /\ (run_page.1 = Returned (Some "# Example Domain") /\
      fs run_page.2 = <["example_com.md" := "# Example Domain"]> ∅).
Proof.
  split.
  - exact (proj1 (failed_crawl_writes_nothing (Demo.world None Demo.failed)
             "https://example.com" None (start ∅) Demo.failed eq_refl eq_refl)
             eq_refl).
  - exact (proj2 (failed_crawl_writes_nothing (Demo.world None Demo.page)
             "https://example.com" None (start ∅) Demo.page eq_refl eq_refl)
             eq_refl "example_com.md" eq_refl eq_refl).
Defined.

(** C8.  When a successful crawl yields missing or empty markdown, the
    content extracted is the empty string; it is written verbatim to the
    output file and returned; and whatever exception such a run can end
    with comes from deriving the file name or from opening the file, never
    from the shape of the content. *)
Theorem empty_markdown_gives_empty_file w url output_file s r :
  launch w Scrape.browser_config = None ->
  arun w url Scrape.run_config = Returned r ->
  success r = true ->
  markdown r = None \/ markdown r = Some "" ->
  let run := Scrape.scrape_to_markdown w url output_file s in
  Scrape.markdown_content r = ""
  /\ (forall path,
        Scrape.output_path w url output_file = Returned path ->
        open_w w path = None ->
        run.1 = Returned (Some "") /\ fs run.2 = <[path := ""]> (fs s))
  /\ (forall e, run.1 = Raised e ->
        Scrape.output_path w url output_file = Raised e \/
        exists path, Scrape.output_path w url output_file = Returned path /\
                     open_w w path = Some e).
Proof.
  intros Hl Ha Hs Hm run. subst run.
  assert (Scrape.markdown_content r = "") as Hc.
  { unfold Scrape.markdown_content. by destruct Hm as [-> | ->]. }
  rewrite (scrape_to_markdown_run _ _ _ _ _ Hl Ha). cbv zeta.
  rewrite Hs, Hc. split; [done|]. split.
  - intros path -> ->. by split.
  - intros e. destruct (Scrape.output_path w url output_file) as [path|e'].
    + destruct (open_w w path) as [e'|] eqn:Ho; simpl; [|done].
      intros [= <-]. right. by exists path.
    + simpl. intros [= <-]. by left.
Qed.

Lemma empty_markdown_gives_empty_file_witness :
  let run :=
    Scrape.scrape_to_markdown (Demo.world None Demo.empty_page)
      "https://example.com" (Some "out.md") (start ∅) in
  run.1 = Returned (Some "") /\ fs run.2 = <["out.md" := ""]> ∅.
Proof.
  exact (proj1 (proj2 (empty_markdown_gives_empty_file
           (Demo.world None Demo.empty_page) "https://example.com" (Some "out.md")
           (start ∅) Demo.empty_page eq_refl eq_refl eq_refl (or_intror eq_refl)))
           "out.md" eq_refl eq_refl).
Defined.

Lemma printed_app tr1 tr2 : printed (tr1 ++ tr2) = printed tr1 ++ printed tr2.
Proof. apply omap_app. Qed.

(** C7.  Without a URL argument, [main] prints the three usage lines and
    nothing else, touches neither browser nor files, and the process exits
    with code 1.  With a URL whose crawl reports failure, it prints the
    error detail and ends normally: the exit code is 0. *)
Theorem main_exit_codes w s :
  (forall argv, (length argv < 2)%nat ->
     let run := Scrape.main w argv s in
     exit_code run.1 = 1 /\
     run.2 = {| fs := fs s; trace := trace s ++ (EPrint <$> usage) |})
  /\
  (forall prog url rest r,
     launch w Scrape.browser_config = None ->
     arun w url Scrape.run_config = Returned r ->
     success r = false ->
     let run := Scrape.main w (prog :: url :: rest) s in
     run.1 = Returned tt /\ exit_code run.1 = 0 /\ fs run.2 = fs s /\
     printed (trace run.2) =
       printed (trace s) ++
         ["Scraping: " +:+ url; "Failed: " +:+ Py.str_opt (error_message r)]).
Proof.
  split.
  - intros argv Hn run. subst run. unfold Scrape.main.
    destruct (Nat.ltb_spec (length argv) 2) as [_|?]; [|lia].
    unfold print, emit, raise, mbind, M_bind. simpl.
    by rewrite <- !app_assoc.
  - intros prog url rest r Hl Ha Hs run. subst run. unfold Scrape.main.
    change (length (prog :: url :: rest) <? 2)%nat with false. cbv iota.
    change (nth 1 (prog :: url :: rest) "") with url.
    unfold mbind, M_bind.
    rewrite (scrape_to_markdown_run _ _ _ _ _ Hl Ha). cbv zeta. rewrite Hs.
    repeat split. simpl. by rewrite printed_app.
Qed.

Lemma main_exit_codes_witness :
  exit_code (Scrape.main (Demo.world None Demo.failed) ["scrape.py"] (start ∅)).1 = 1
  /\ exit_code (Scrape.main (Demo.world None Demo.failed)
                  ["scrape.py"; "https://example.com"] (start ∅)).1 = 0
  /\ printed (trace (Scrape.main (Demo.world None Demo.failed)
                  ["scrape.py"; "https://example.com"] (start ∅)).2)
     = ["Scraping: https://example.com"; "Failed: net::ERR_NAME_NOT_RESOLVED"].
Proof.
  pose proof (main_exit_codes (Demo.world None Demo.failed) (start ∅)) as [H1 H2].
  split; [exact (proj1 (H1 ["scrape.py"] ltac:(simpl; lia)))|].
  specialize (H2 "scrape.py" "https://example.com" [] Demo.failed
                 eq_refl eq_refl eq_refl).
  split; [exact (proj1 (proj2 H2)) | exact (proj2 (proj2 (proj2 H2)))].
Defined.

(** *** The default output file *)

Lemma replace_removes a b s : a <> b -> PyStr.mem a (PyStr.replace a b s) = false.
Proof.
  intros Hab. induction s as [|c s IH]; [done|]. simpl.
  rewrite IH, orb_false_r.
  destruct (Ascii.eqb_spec c a) as [->|Hc].
  - by apply Ascii.eqb_neq.
  - by apply Ascii.eqb_neq.
Qed.

Lemma before_first_absent c s : PyStr.mem c s = false -> Url.before_first c s = s.
Proof.
  induction s as [|d s IH]; [done|]. simpl.
  intros [Hd Hs]%orb_false_iff. rewrite Hd. by rewrite IH.
Qed.

Lemma after_last_absent c s : PyStr.mem c s = false -> Url.after_last c s = s.
Proof.
  destruct s as [|d s]; [done|]. simpl.
  intros [Hd Hs]%orb_false_iff. by rewrite Hs, Hd.
Qed.

(** A network location without user information, port or bracketed
    literal is its own host. *)
Lemma host_of_bare_netloc n :
  PyStr.mem "@" n = false -> PyStr.mem ":" n = false -> PyStr.mem "[" n = false ->
  Url.host n = n.
Proof.
  intros Hat Hcolon Hbr. unfold Url.host.
  rewrite (after_last_absent _ _ Hat), Hbr.
  by apply before_first_absent.
Qed.

Lemma netloc_returned chk url n :
  Url.netloc chk url = Returned n -> n = Url.split_netloc url.
Proof.
  unfold Url.netloc.
  destruct (_ || _); [done|].
  destruct (_ && _); [|by intros [= <-]].
  destruct (chk _); [done|]. by intros [= <-].
Qed.

(** C5 (amended).  For every URL that [urlparse] accepts, the default
    output file is a function of the URL alone: its network location
    ([netloc]: the host together with any user information and port) with
    every [.] replaced by [_], followed by [.md].  Where the network
    location is a bare host, this is the host-derived name of the
    specification. *)
Theorem default_output_file_from_netloc w url netloc :
  Url.netloc (check_bracketed_host w) url = Returned netloc ->
  Scrape.output_path w url None =
    Returned (PyStr.replace "." "_" netloc +:+ ".md")
  /\ PyStr.mem "." (PyStr.replace "." "_" netloc) = false
  /\ (PyStr.mem "@" netloc = false -> PyStr.mem ":" netloc = false ->
      PyStr.mem "[" netloc = false ->
      Scrape.output_path w url None = Returned (spec_default_output_file url)).
Proof.
  intros Hn.
  assert (Scrape.output_path w url None =
            Returned (PyStr.replace "." "_" netloc +:+ ".md")) as Hp.
  { unfold Scrape.output_path, Scrape.derived_output_file. by rewrite Hn. }
  split; [exact Hp|]. split; [by apply replace_removes|].
  intros Hat Hcolon Hbr. rewrite Hp. unfold spec_default_output_file.
  rewrite <- (netloc_returned _ _ _ Hn).
  by rewrite host_of_bare_netloc.
Qed.

Lemma default_output_file_from_netloc_witness :
  Scrape.output_path (Demo.world None Demo.page) "https://example.com" None
    = Returned "example_com.md"
  /\ Scrape.output_path (Demo.world None Demo.page) "https://example.com" None
    = Returned (spec_default_output_file "https://example.com").
Proof.
  pose proof (default_output_file_from_netloc (Demo.world None Demo.page)
                "https://example.com" "example.com" eq_refl) as (H1 & _ & H3).
  split; [exact H1 | exact (H3 eq_refl eq_refl eq_refl)].
Defined.

(** C5 as stated fails on a URL with a port: the code keeps the port in
    the file name, [example_com:8080.md], where the host-derived name is
    [example_com.md]. *)
Lemma default_output_file_keeps_port :
  Scrape.output_path (Demo.world None Demo.page) "https://example.com:8080/" None
    = Returned "example_com:8080.md"
  /\ spec_default_output_file "https://example.com:8080/" = "example_com.md"
  /\ Scrape.output_path (Demo.world None Demo.page) "https://example.com:8080/" None
    <> Returned (spec_default_output_file "https://example.com:8080/").
Proof. done. Qed.

(** ** Running [scrape_reddit_internship] *)

(** The whole run, once the credential check has passed, the browser has
    started and the crawl has returned a result. *)
Lemma scrape_reddit_run w key s r :
  credential w key ->
  launch w ScrapeReddit.browser_config = None ->
  arun w ScrapeReddit.target_url (ScrapeReddit.run_config_of key) = Returned r ->
  ScrapeReddit.scrape_reddit_internship w s =
    let crawl := [ELaunch ScrapeReddit.browser_config;
                  EPrint "Crawling r/internships...";
                  EArun ScrapeReddit.target_url (ScrapeReddit.run_config_of key)] in
    let crawled := crawl ++
                 [EPrint (PyStr.nl +:+ "Crawl successful!");
                  EPrint ("Status code: " +:+ Py.str_opt_Z (status_code r))] in
    if success r then
      match ScrapeReddit.nonempty_content r with
      | Some content =>
          let res :=
            try_except_JSONDecodeError
              (ScrapeReddit.parse_display_save w content)
              (ScrapeReddit.report_parse_error content)
              {| fs := fs s; trace := trace s ++ crawled |} in
          (res.1, {| fs := fs res.2; trace := trace res.2 ++ [EClose] |})
      | None =>
          (Returned tt,
           {| fs := fs s;
              trace := trace s ++ crawled ++
                [EPrint "No content extracted by LLM";
                 EPrint ("Raw markdown (first 1000 chars):" +:+ PyStr.nl
                         +:+ ScrapeReddit.markdown_head r);
                 EClose] |})
      end
    else
      (Returned tt,
       {| fs := fs s;
          trace := trace s ++ crawl ++
            [EPrint ("Crawl failed: " +:+ Py.str_opt (error_message r)); EClose] |}).
Proof.
  intros Hc Hl Ha. rewrite (scrape_reddit_with_credential _ _ _ Hc).
  rewrite (async_with_run _ _ _ _ Hl).
  unfold ScrapeReddit.crawl_and_extract, crawler_arun, print, emit, lift,
    mbind, mret, M_bind, M_ret.
  simpl. rewrite Ha. simpl.
  destruct (success r); simpl.
  - destruct (ScrapeReddit.nonempty_content r) as [content|]; simpl.
    + by rewrite <- ?app_assoc.
    + by rewrite <- ?app_assoc.
  - by rewrite <- ?app_assoc.
Qed.

(** *** The display loop *)

Lemma printed_from_refl s : printed_from s s.
Proof. exists []. destruct s. simpl. by rewrite app_nil_r. Qed.

Lemma printed_from_trans s1 s2 s3 :
  printed_from s1 s2 -> printed_from s2 s3 -> printed_from s1 s3.
Proof.
  intros [l1 ->] [l2 ->]. exists (l1 ++ l2). simpl.
  by rewrite fmap_app, app_assoc.
Qed.

Lemma display_post_ok w i post s :
  post_ok post = true ->
  exists s', ScrapeReddit.display_post w i post s = (Returned tt, s') /\ printed_from s s'.
Proof.
  destruct post as [| | | | |?|d]; try done. simpl. intros Hp.
  unfold ScrapeReddit.display_post, ScrapeReddit.print_field, Py.get, lift,
    mbind, mret, M_bind, M_ret.
  cbn [print emit fst snd].
  set (preview := Py.dict_get d "content_preview" PyNone) in *.
  unfold preview_ok in Hp.
  destruct (Py.truthy preview) eqn:Ht; simpl in Hp.
  - destruct preview; try done; simpl; eexists; (split; [reflexivity|]);
      eexists [_; _; _; _; _; _; _; _]; simpl; by rewrite <- !app_assoc.
  - eexists. split; [reflexivity|].
    eexists [_; _; _; _; _; _; _]. simpl. by rewrite <- !app_assoc.
Qed.

Lemma display_loop_ok w items start s :
  forallb post_ok items = true ->
  exists s',
    for_enumerate items start (ScrapeReddit.display_post w) s = (Returned tt, s') /\
    printed_from s s'.
Proof.
  revert start s. induction items as [|post items IH]; intros start s Hall.
  - exists s. split; [done|apply printed_from_refl].
  - simpl in Hall. apply andb_true_iff in Hall as [Hp Hall].
    destruct (display_post_ok w start post s Hp) as (s1 & E1 & P1).
    destruct (IH (S start) s1 Hall) as (s2 & E2 & P2).
    exists s2. split; [|by eapply printed_from_trans].
    simpl. unfold mbind, M_bind. by rewrite E1.
Qed.

Lemma display_post_bad w i post s :
  post_ok post = false ->
  exists e s',
    ScrapeReddit.display_post w i post s = (Raised e, s') /\
    shape_error e /\ printed_from s s'.
Proof.
  unfold ScrapeReddit.display_post, ScrapeReddit.print_field, lift,
    mbind, mret, M_bind, M_ret, shape_error.
  cbn [print emit fst snd].
  destruct post as [| | | | |?|d]; simpl;
    try (intros _; exists AttributeError; eexists; split; [reflexivity|];
         split; [by left|]; by eexists [_]).
  set (preview := Py.dict_get d "content_preview" PyNone) in *.
  unfold preview_ok. destruct (Py.truthy preview) eqn:Ht; simpl; [|done].
  destruct preview; try done; simpl; intros _;
    eexists; eexists; (split; [reflexivity|]);
    (split; [try destruct (hashable_slices w); auto|]);
    eexists [_; _; _; _; _; _]; simpl; by rewrite <- !app_assoc.
Qed.

Lemma display_loop_bad w items start s :
  forallb post_ok items = false ->
  exists e s',
    for_enumerate items start (ScrapeReddit.display_post w) s = (Raised e, s') /\
    shape_error e /\ printed_from s s'.
Proof.
  revert start s. induction items as [|post items IH]; intros start s Hall; [done|].
  simpl in Hall. simpl. unfold mbind, M_bind.
  destruct (post_ok post) eqn:Hp.
  - destruct (display_post_ok w start post s Hp) as (s1 & E1 & P1).
    destruct (IH (S start) s1 Hall) as (e & s2 & E2 & He & P2).
    exists e, s2. rewrite E1. split; [done|]. split; [done|].
    by eapply printed_from_trans.
  - destruct (display_post_bad w start post s Hp) as (e & s1 & E1 & He & P1).
    exists e, s1. by rewrite E1.
Qed.

(** *** The body of the [try] statement *)

Lemma parse_display_save_invalid w content e s :
  json_loads w content = Raised e ->
  ScrapeReddit.parse_display_save w content s = (Raised e, s).
Proof.
  intros Hj. unfold ScrapeReddit.parse_display_save, lift, mbind, M_bind.
  by rewrite Hj.
Qed.

Lemma displayable_len_iter posts :
  displayable posts = true ->
  exists n items, Py.len posts = Returned n /\ Py.iter posts = Returned items /\
                  forallb post_ok items = true.
Proof.
  unfold displayable. destruct posts; try done; simpl; eauto.
Qed.

Lemma parse_display_save_ok w content data posts s :
  json_loads w content = Returned data ->
  ScrapeReddit.normalize_posts data = Returned posts ->
  displayable posts = true ->
  open_w w "reddit_posts.json" = None ->
  exists s1,
    printed_from s s1 /\
    ScrapeReddit.parse_display_save w content s =
      (Returned tt,
       {| fs := <["reddit_posts.json" := Json.dumps_indent2 (PyDict [("posts", posts)])]> (fs s);
          trace := trace s1 ++ [EPrint "Data saved to reddit_posts.json"] |}).
Proof.
  intros Hj Hn Hd Ho.
  destruct (displayable_len_iter posts Hd) as (n & items & Hlen & Hit & Hall).
  unfold ScrapeReddit.parse_display_save, lift, write_file, mbind, M_bind.
  rewrite Hj, Hn, Hlen. cbn [print emit]. rewrite Hit, Ho.
  set (s0 := {| fs := fs s; trace := _ |}).
  destruct (display_loop_ok w items 1 s0 Hall) as (s1 & E1 & P1).
  rewrite E1. exists s1. split.
  - eapply printed_from_trans; [|exact P1]. by eexists [_].
  - destruct P1 as [lines ->]. done.
Qed.

(** A response that parses but is of a shape the code does not handle
    ends the [try] body with an [AttributeError], a [TypeError] or a
    [KeyError], before any file is written. *)
Lemma parse_display_save_bad w content data s :
  json_loads w content = Returned data ->
  (forall posts, ScrapeReddit.normalize_posts data = Returned posts ->
                 displayable posts = false) ->
  exists e s',
    ScrapeReddit.parse_display_save w content s = (Raised e, s') /\
    shape_error e /\ printed_from s s'.
Proof.
  intros Hj Hbad.
  unfold ScrapeReddit.parse_display_save, lift, write_file, mbind, M_bind.
  rewrite Hj.
  destruct (ScrapeReddit.normalize_posts data) as [posts|e] eqn:Hn.
  - specialize (Hbad posts eq_refl). unfold displayable in Hbad.
    destruct (Py.len posts) as [n|e] eqn:Hlen.
    + cbn [print emit].
      destruct (Py.iter posts) as [items|e] eqn:Hit.
      * set (s0 := {| fs := fs s; trace := _ |}).
        destruct (display_loop_bad w items 1 s0 Hbad) as (e & s1 & E1 & He & P1).
        rewrite E1. exists e, s1. split; [done|]. split; [done|].
        eapply printed_from_trans; [|exact P1]. by eexists [_].
      * destruct posts; done.
    + exists e, s. split; [done|]. split; [|apply printed_from_refl].
      destruct posts; simpl in Hlen; try done; injection Hlen as <-;
        unfold shape_error; auto.
  - exists e, s. split; [done|]. split; [|apply printed_from_refl].
    unfold ScrapeReddit.normalize_posts, Py.get in Hn.
    destruct data; try done; injection Hn as <-; unfold shape_error; auto.
Qed.

(** ** scrape_reddit.py: the claims *)

(** C1 (amended).  A model answer that is not valid JSON is recoverable:
    the run catches the parse error, prints it with the first 500
    characters of the raw answer, releases the browser and returns
    normally.  It writes no file. *)
Theorem invalid_json_is_reported w key r content msg s :
  answered w key r content ->
  json_loads w content = Raised (JSONDecodeError msg) ->
  let run := ScrapeReddit.scrape_reddit_internship w s in
  run.1 = Returned tt
  /\ fs run.2 = fs s
  /\ released_once s run.2
  /\ printed (trace run.2) =
       printed (trace s) ++
         [ "Crawling r/internships...";
           PyStr.nl +:+ "Crawl successful!";
           "Status code: " +:+ Py.str_opt_Z (status_code r);
           "Error parsing extracted content: " +:+ msg;
           "Raw content: " +:+ PyStr.take 500 content ].
Proof.
  intros (Hc & Hl & Ha & Hs & Hn) Hj run.
  pose proof (scrape_reddit_released_once w key s Hl Hc) as Hrel.
  subst run. revert Hrel.
  rewrite (scrape_reddit_run _ _ _ _ Hc Hl Ha). cbv zeta. rewrite Hs, Hn.
  unfold try_except_JSONDecodeError.
  rewrite (parse_display_save_invalid _ _ _ _ Hj).
  unfold ScrapeReddit.report_parse_error, print, emit, mbind, M_bind. simpl.
  intros Hrel. repeat split; try apply Hrel.
  by rewrite <- !app_assoc, printed_app.
Qed.

Lemma invalid_json_is_reported_witness :
  let run :=
    ScrapeReddit.scrape_reddit_internship
      (Demo.world (Some "secret") (Demo.extracted "not json")) (start ∅) in
  run.1 = Returned tt /\ fs run.2 = ∅.
Proof.
  pose proof (invalid_json_is_reported
    (Demo.world (Some "secret") (Demo.extracted "not json")) "secret"
    (Demo.extracted "not json") "not json" "Expecting value: line 1 column 1 (char 0)"
    (start ∅)
    (conj (conj eq_refl eq_refl) (conj eq_refl (conj eq_refl (conj eq_refl eq_refl))))
    eq_refl) as (H1 & H2 & _).
  exact (conj H1 H2).
Defined.

(** C1 as stated fails when the model answers [not json]: the run ends
    normally, but no file holds a fallback artifact, and what is printed is
    the parse error and the raw answer, neither the page's markdown nor the
    marker [No content extracted by LLM]. *)
Lemma invalid_json_leaves_no_artifact :
  let run :=
    ScrapeReddit.scrape_reddit_internship
      (Demo.world (Some "secret") (Demo.extracted "not json")) (start ∅) in
  run.1 = Returned tt
  /\ ~ wrote_a_file (start ∅) run.2
  /\ printed (trace run.2) =
       [ "Crawling r/internships...";
         PyStr.nl +:+ "Crawl successful!";
         "Status code: 200";
         "Error parsing extracted content: Expecting value: line 1 column 1 (char 0)";
         "Raw content: not json" ].
Proof.
  cbv zeta. split; [done|]. split; [|done].
  intros (path & text & Hin & _).
  assert (fs (ScrapeReddit.scrape_reddit_internship
                (Demo.world (Some "secret") (Demo.extracted "not json")) (start ∅)).2
          = ∅) as E by done.
  rewrite E in Hin. by rewrite lookup_empty in Hin.
Qed.

(** C2 (amended).  Normalization of a parsed answer: an array is the
    record list itself; a mapping gives the value of its [posts] key, the
    empty list when the key is absent; any other value (string, number,
    boolean, null) has no [get] attribute, and the lookup raises
    [AttributeError] instead of giving a record list. *)
Theorem normalize_posts_by_shape (data : pyval) :
  match data with
  | PyList l => ScrapeReddit.normalize_posts data = Returned (PyList l)
  | PyDict d =>
      ScrapeReddit.normalize_posts data =
        Returned (default (PyList []) (snd <$> find (fun kv => String.eqb kv.1 "posts") d))
  | _ => ScrapeReddit.normalize_posts data = Raised AttributeError
  end.
Proof.
  destruct data as [| | | | |l|d]; try done.
  unfold ScrapeReddit.normalize_posts, Py.get. f_equal.
  induction d as [|[k v] d IH]; [done|]. simpl.
  by destruct (String.eqb k "posts").
Qed.

(** C2 as stated fails when the model answers [42]: no empty record list
    comes out of the normalization, the run ends with [AttributeError] and
    [reddit_posts.json] is not written. *)
Lemma scalar_answer_is_not_normalized :
  let run :=
    ScrapeReddit.scrape_reddit_internship
      (Demo.world (Some "secret") (Demo.extracted "42")) (start ∅) in
  ScrapeReddit.normalize_posts (PyInt 42) <> Returned (PyList [])
  /\ run.1 = Raised AttributeError
  /\ fs run.2 !! "reddit_posts.json" = None.
Proof. done. Qed.

(** C3.  Without [GEMINI_API_KEY] in the environment (or with an empty
    one), the entry point raises its configuration error at once: the
    state is the one it started in, so nothing was printed, no browser was
    launched and no crawl, hence no model call, was made. *)
Theorem missing_credential_fails_first w s :
  getenv w "GEMINI_API_KEY" = None \/ getenv w "GEMINI_API_KEY" = Some "" ->
  ScrapeReddit.scrape_reddit_internship w s =
    (Raised (ValueError
       "GEMINI_API_KEY not found in environment variables. Please set it in .env file."),
     s)
  /\ Forall (fun e => is_browser_event e = false)
       (drop (length (trace s)) (trace (ScrapeReddit.scrape_reddit_internship w s).2)).
Proof.
  intros H.
  assert (ScrapeReddit.scrape_reddit_internship w s =
            (Raised ScrapeReddit.credential_missing, s)) as E.
  { unfold ScrapeReddit.scrape_reddit_internship. by destruct H as [-> | ->]. }
  rewrite E. split; [done|]. simpl. by rewrite drop_all.
Qed.

Lemma missing_credential_fails_first_witness :
  (ScrapeReddit.scrape_reddit_internship (Demo.world None Demo.page) (start ∅)).2
    = start ∅.
Proof.
  exact (f_equal snd (proj1 (missing_credential_fails_first
           (Demo.world None Demo.page) (start ∅) (or_introl eq_refl)))).
Defined.

Lemma body_events_no_launch evs config :
  Forall body_event evs -> ELaunch config ∉ evs ++ [EClose].
Proof.
  intros F [Hin|Hin]%elem_of_app.
  - rewrite Forall_forall in F. by destruct (F _ Hin).
  - by apply list_elem_of_singleton in Hin.
Qed.

(** C6 (amended).  [scrape_to_markdown] launches the browser once, in
    headless mode and quietly.  [scrape_reddit_internship] launches it
    once, when the credential is present, with a visible window
    ([headless] is false, for debugging) and verbosely; without the
    credential it launches nothing. *)
Theorem headless_in_scrape_only w s :
  (forall url output_file, exists evs,
     trace (Scrape.scrape_to_markdown w url output_file s).2 =
       trace s ++ ELaunch {| headless := true; verbose := false |} :: evs
     /\ forall config, ELaunch config ∉ evs)
  /\
  (forall key, credential w key -> exists evs,
     trace (ScrapeReddit.scrape_reddit_internship w s).2 =
       trace s ++ ELaunch {| headless := false; verbose := true |} :: evs
     /\ forall config, ELaunch config ∉ evs)
  /\
  ((forall key, ~ credential w key) ->
     trace (ScrapeReddit.scrape_reddit_internship w s).2 = trace s).
Proof.
  split; [|split].
  - intros url output_file.
    destruct (scrape_to_markdown_trace w url output_file s) as (evs & F & E).
    eexists. split; [exact E|]. intros config.
    destruct (launch w Scrape.browser_config); [apply not_elem_of_nil|].
    by apply body_events_no_launch.
  - intros key Hc.
    destruct (scrape_reddit_trace w key s Hc) as (evs & F & E).
    eexists. split; [exact E|]. intros config.
    destruct (launch w ScrapeReddit.browser_config); [apply not_elem_of_nil|].
    by apply body_events_no_launch.
  - intros Hno. by rewrite scrape_reddit_without_credential.
Qed.

Lemma headless_in_scrape_only_witness :
  (exists evs,
     trace (Scrape.scrape_to_markdown (Demo.world (Some "secret") Demo.page)
              "https://example.com" None (start ∅)).2
       = ELaunch {| headless := true; verbose := false |} :: evs)
  /\
  (exists evs,
     trace (ScrapeReddit.scrape_reddit_internship
              (Demo.world (Some "secret") Demo.page) (start ∅)).2
       = ELaunch {| headless := false; verbose := true |} :: evs).
Proof.
  pose proof (headless_in_scrape_only (Demo.world (Some "secret") Demo.page) (start ∅))
    as (H1 & H2 & _).
  split.
  - destruct (H1 "https://example.com" None) as (evs & E & _). by exists evs.
  - destruct (H2 "secret" (conj eq_refl eq_refl)) as (evs & E & _). by exists evs.
Defined.

(** C6 as stated fails for scrape_reddit.py: its run launches the browser
    with [headless] false. *)
Lemma reddit_browser_is_not_headless :
  ~ launches_headless
      (trace (ScrapeReddit.scrape_reddit_internship
                (Demo.world (Some "secret") Demo.page) (start ∅)).2).
Proof.
  intros H.
  assert (false = true) as Hf; [|discriminate Hf].
  apply (H {| headless := false; verbose := true |}).
  vm_compute. apply list_elem_of_here.
Qed.

(** C9 (amended).  When extraction succeeds, the model answer parses to
    an array or a mapping, every record of the normalized list can be
    displayed (it is a mapping whose [content_preview] is absent, falsy,
    text or a list) and [reddit_posts.json] can be opened, the run ends
    normally and that file holds exactly [json.dump] of the object with the
    single key [posts] bound to the normalized records, indented by two
    spaces. *)
Theorem posts_saved_as_json w key r content data posts s :
  answered w key r content ->
  json_loads w content = Returned data ->
  ScrapeReddit.normalize_posts data = Returned posts ->
  displayable posts = true ->
  open_w w "reddit_posts.json" = None ->
  let run := ScrapeReddit.scrape_reddit_internship w s in
  run.1 = Returned tt
  /\ fs run.2 =
       <["reddit_posts.json" := Json.dumps_indent2 (PyDict [("posts", posts)])]> (fs s).
Proof.
  intros (Hc & Hl & Ha & Hs & Hn) Hj Hnorm Hd Ho run. subst run.
  rewrite (scrape_reddit_run _ _ _ _ Hc Hl Ha). cbv zeta. rewrite Hs, Hn.
  unfold try_except_JSONDecodeError.
  set (s0 := {| fs := fs s; trace := _ |}).
  destruct (parse_display_save_ok w content data posts s0 Hj Hnorm Hd Ho)
    as (s1 & P1 & E).
  by rewrite E.
Qed.

Lemma posts_saved_as_json_witness :
  let run :=
    ScrapeReddit.scrape_reddit_internship
      (Demo.world (Some "secret") (Demo.extracted Demo.one_post_text)) (start ∅) in
  run.1 = Returned tt
  /\ fs run.2 =
       <["reddit_posts.json" :=
           Json.dumps_indent2
             (PyDict [("posts",
                PyList [PyDict [("title", PyStr "A"); ("author", PyStr "B")]])])]> ∅.
Proof.
  exact (posts_saved_as_json
    (Demo.world (Some "secret") (Demo.extracted Demo.one_post_text)) "secret"
    (Demo.extracted Demo.one_post_text) Demo.one_post_text Demo.one_post
    (PyList [PyDict [("title", PyStr "A"); ("author", PyStr "B")]]) (start ∅)
    (conj (conj eq_refl eq_refl) (conj eq_refl (conj eq_refl (conj eq_refl eq_refl))))
    eq_refl eq_refl eq_refl eq_refl).
Defined.

(** C9 as stated fails when the model answers [[1, 2]]: the answer
    parses and normalizes to the records [1] and [2], but displaying the
    first one raises [AttributeError] and [reddit_posts.json] is never
    written. *)
Lemma parsed_answer_not_saved :
  let w := Demo.world (Some "secret") (Demo.extracted "[1, 2]") in
  let run := ScrapeReddit.scrape_reddit_internship w (start ∅) in
  answered w "secret" (Demo.extracted "[1, 2]") "[1, 2]"
  /\ json_loads w "[1, 2]" = Returned (PyList [PyInt 1; PyInt 2])
  /\ ScrapeReddit.normalize_posts (PyList [PyInt 1; PyInt 2])
     = Returned (PyList [PyInt 1; PyInt 2])
  /\ run.1 = Raised AttributeError
  /\ fs run.2 !! "reddit_posts.json" = None.
Proof. cbv zeta. unfold answered, credential. repeat split; done. Qed.

(** X13.  The converse of the condition on the records: an answer that parses
    but whose records cannot be displayed ends the run with an
    [AttributeError], a [TypeError] or a [KeyError], the browser released
    and no file written. *)
Lemma unhandled_shape_aborts w key r content data s :
  answered w key r content ->
  json_loads w content = Returned data ->
  (forall posts, ScrapeReddit.normalize_posts data = Returned posts ->
                 displayable posts = false) ->
  let run := ScrapeReddit.scrape_reddit_internship w s in
  (exists e, run.1 = Raised e /\ shape_error e)
  /\ fs run.2 = fs s
  /\ released_once s run.2.
Proof.
  intros (Hc & Hl & Ha & Hs & Hn) Hj Hbad run.
  pose proof (scrape_reddit_released_once w key s Hl Hc) as Hrel.
  subst run. revert Hrel.
  rewrite (scrape_reddit_run _ _ _ _ Hc Hl Ha). cbv zeta. rewrite Hs, Hn.
  unfold try_except_JSONDecodeError.
  set (s0 := {| fs := fs s; trace := _ |}).
  destruct (parse_display_save_bad w content data s0 Hj Hbad)
    as (e & s1 & E & He & [lines ->]).
  rewrite E. intros Hrel.
  assert (match e with JSONDecodeError _ => False | _ => True end) as Hne.
  { by destruct He as [-> | [-> | ->]]. }
  destruct e; try done; simpl; (split; [by eexists|]); split; done.
Qed.

Lemma unhandled_shape_aborts_witness :
  let run := ScrapeReddit.scrape_reddit_internship
               (Demo.world (Some "secret") (Demo.extracted "[1, 2]")) (start ∅) in
  (exists e, run.1 = Raised e /\ shape_error e) /\ fs run.2 = ∅.
Proof.
  intros run.
  assert (forall posts,
            ScrapeReddit.normalize_posts (PyList [PyInt 1; PyInt 2]) = Returned posts ->
            displayable posts = false) as Hbad.
  { intros posts [= <-]. reflexivity. }
  pose proof (unhandled_shape_aborts
    (Demo.world (Some "secret") (Demo.extracted "[1, 2]")) "secret"
    (Demo.extracted "[1, 2]") "[1, 2]" (PyList [PyInt 1; PyInt 2]) (start ∅)
    (conj (conj eq_refl eq_refl) (conj eq_refl (conj eq_refl (conj eq_refl eq_refl))))
    eq_refl Hbad) as (H1 & H2 & _).
  exact (conj H1 H2).
Defined.

(** * Worked runs *)

(** [urlparse(...).netloc] on a few URLs. *)
Example netloc_examples :
  Url.split_netloc "https://example.com" = "example.com"
  /\ Url.split_netloc "https://user:pw@Example.com:8080/a/b?x#y" = "user:pw@Example.com:8080"
  /\ Url.split_netloc "example.com/path" = ""
  /\ Url.host "user:pw@Example.com:8080" = "Example.com"
  /\ Url.host "[::1]:80" = "::1".
Proof. done. Qed.

(** The text [json.dump(..., indent=2)] writes for the answer of the second
    end-to-end scenario. *)
Example dumps_one_post :
  Json.dumps_indent2 Demo.one_post =
    PyStr.join PyStr.nl
      [ "{";
        "  " +:+ Demo.quoted "posts" +:+ ": [";
        "    {";
        "      " +:+ Demo.quoted "title" +:+ ": " +:+ Demo.quoted "A" +:+ ",";
        "      " +:+ Demo.quoted "author" +:+ ": " +:+ Demo.quoted "B";
        "    }";
        "  ]";
        "}" ].
Proof. done. Qed.

(** End-to-end scenario 1: [https://example.com] with no output file
    writes [example_com.md] holding the page's markdown. *)
Example scrape_example_com :
  Scrape.main (Demo.world None Demo.page) ["scrape.py"; "https://example.com"] (start ∅) =
    (Returned tt,
     {| fs := {["example_com.md" := "# Example Domain"]};
        trace :=
          [ ELaunch Scrape.browser_config;
            EPrint "Scraping: https://example.com";
            EArun "https://example.com" Scrape.run_config;
            EPrint "Success! Saved to example_com.md";
            EPrint "Content length: 16 characters";
            EClose ] |}).
Proof. done. Qed.

(** A mapping without [posts] is saved as an empty record list. *)
Example empty_mapping_is_saved :
  let run :=
    ScrapeReddit.scrape_reddit_internship
      (Demo.world (Some "secret") (Demo.extracted "{}")) (start ∅) in
  run.1 = Returned tt
  /\ fs run.2 !! "reddit_posts.json"
     = Some (PyStr.join PyStr.nl ["{"; "  " +:+ Demo.quoted "posts" +:+ ": []"; "}"])
  /\ printed (trace run.2) =
       [ "Crawling r/internships...";
         PyStr.nl +:+ "Crawl successful!";
         "Status code: 200";
         PyStr.nl +:+ "Extracted 0 posts:" +:+ PyStr.nl;
         "Data saved to reddit_posts.json" ].
Proof. done. Qed.

(** The lines the display loop prints for one record. *)
Example display_one_post :
  printed (trace (ScrapeReddit.display_post (Demo.world None Demo.page) 1
     (PyDict [("title", PyStr "A"); ("author", PyStr "B"); ("upvotes", PyInt 12);
              ("content_preview", PyStr "Looking for advice")])
     (start ∅)).2) =
    [ "--- Post 1 ---"; "Title: A"; "Author: B"; "Upvotes: 12"; "Comments: N/A";
      "Posted: N/A"; "Preview: Looking for advice..."; "" ].
Proof. done. Qed.

(** A browser that does not start: the error leaves the run, and there
    was no session to release. *)
Example browser_does_not_start :
  let w := {| getenv := fun _ => None;
              launch := fun _ => Some (ExternalError "Executable doesn't exist");
              arun := fun _ _ => Returned Demo.page;
              json_loads := Demo.loads;
              open_w := fun _ => None;
              check_bracketed_host := fun _ => None;
              hashable_slices := true |} in
  Scrape.scrape_to_markdown w "https://example.com" None (start ∅) =
    (Raised (ExternalError "Executable doesn't exist"),
     {| fs := ∅; trace := [ELaunch Scrape.browser_config] |}).
Proof. done. Qed.

(** * Further properties of scrape.py *)

(** The run when the crawl itself raises. *)
Lemma scrape_to_markdown_crawl_raises w url output_file s e :
  launch w Scrape.browser_config = None ->
  arun w url Scrape.run_config = Raised e ->
  Scrape.scrape_to_markdown w url output_file s =
    (Raised e,
     {| fs := fs s;
        trace := trace s ++
          [ELaunch Scrape.browser_config; EPrint ("Scraping: " +:+ url);
           EArun url Scrape.run_config; EClose] |}).
Proof.
  intros Hl Ha. unfold Scrape.scrape_to_markdown.
  rewrite (async_with_run _ _ _ _ Hl).
  unfold Scrape.crawl_and_save, crawler_arun, print, emit, lift, mbind, M_bind.
  simpl. rewrite Ha. simpl. by rewrite <- ?app_assoc.
Qed.

(** The run when the browser does not start. *)
Lemma scrape_to_markdown_not_started w url output_file s e :
  launch w Scrape.browser_config = Some e ->
  Scrape.scrape_to_markdown w url output_file s =
    (Raised e, {| fs := fs s; trace := trace s ++ [ELaunch Scrape.browser_config] |}).
Proof.
  intros Hl. unfold Scrape.scrape_to_markdown, async_with_AsyncWebCrawler,
    mbind, M_bind, emit. simpl. by rewrite Hl.
Qed.


(** X2.  A run of [scrape_to_markdown] is one launch, one line, one crawl of
    the URL exactly as given and with the fixed run configuration, then
    printed lines only, then the release: it never crawls twice and never
    crawls after a failure.  When the browser does not start, the error
    leaves the function and nothing else happens. *)
Theorem scrape_crawls_once w url output_file s :
  let run := Scrape.scrape_to_markdown w url output_file s in
  match launch w Scrape.browser_config with
  | Some e =>
      run = (Raised e,
             {| fs := fs s; trace := trace s ++ [ELaunch Scrape.browser_config] |})
  | None =>
      exists lines,
        trace run.2 =
          trace s ++
            [ELaunch Scrape.browser_config; EPrint ("Scraping: " +:+ url);
             EArun url Scrape.run_config]
            ++ (EPrint <$> lines) ++ [EClose]
  end.
Proof.
  cbv zeta.
  destruct (launch w Scrape.browser_config) as [e|] eqn:Hl.
  { by apply scrape_to_markdown_not_started. }
  destruct (arun w url Scrape.run_config) as [r|e] eqn:Ha.
  2:{ rewrite (scrape_to_markdown_crawl_raises _ _ _ _ _ Hl Ha). by exists []. }
  rewrite (scrape_to_markdown_run _ _ _ _ _ Hl Ha). cbv zeta.
  destruct (success r); [|by eexists [_]].
  destruct (Scrape.output_path w url output_file) as [path|e]; [|by exists []].
  destruct (open_w w path) as [e|]; [by exists []|].
  by eexists [_; _].
Qed.

(** X3.  Errors surface: an exception raised by the crawl, by parsing the URL
    for the default file name, or by opening the output file leaves
    [scrape_to_markdown] as that very exception, after the browser has been
    released; no file is written and no success line is printed.  [main]
    lets it through, so the process ends with the exception's exit code. *)
Theorem scrape_errors_surface w prog url rest s e :
  launch w Scrape.browser_config = None ->
  let output_file := if (2 <? length (prog :: url :: rest))%nat
                     then Some (nth 2 (prog :: url :: rest) "") else None in
  arun w url Scrape.run_config = Raised e
  \/ (exists r, arun w url Scrape.run_config = Returned r /\ success r = true /\
        (Scrape.output_path w url output_file = Raised e
         \/ exists path, Scrape.output_path w url output_file = Returned path /\
                         open_w w path = Some e)) ->
  let run := Scrape.main w (prog :: url :: rest) s in
  run.1 = Raised e
  /\ exit_code run.1 = match e with SystemExit code => code | _ => 1 end
  /\ fs run.2 = fs s
  /\ released_once s run.2
  /\ printed (trace run.2) = printed (trace s) ++ ["Scraping: " +:+ url].
Proof.
  intros Hl output_file Hcase run.
  pose proof (scrape_released_once w url output_file s Hl) as Hrel.
  subst run. unfold Scrape.main.
  change (length (prog :: url :: rest) <? 2)%nat with false. cbv iota.
  change (nth 1 (prog :: url :: rest) "") with url.
  fold output_file. unfold mbind, M_bind. revert Hrel.
  assert (forall s' : state,
            fs s' = fs s ->
            printed (trace s') = printed (trace s) ++ ["Scraping: " +:+ url] ->
            released_once s s' ->
            (Raised e : outcome unit) = Raised e
            /\ exit_code (Raised e : outcome unit)
                = match e with SystemExit code => code | _ => 1 end
            /\ fs s' = fs s /\ released_once s s'
            /\ printed (trace s') = printed (trace s) ++ ["Scraping: " +:+ url])
    as Hfin.
  { intros s' Hf Hp Hr. repeat (split; [done || by destruct e|]). done. }
  destruct Hcase as [Ha | (r & Ha & Hs & Hcase)].
  - rewrite (scrape_to_markdown_crawl_raises _ _ _ _ _ Hl Ha). intros Hrel.
    apply Hfin; [done| |done]. simpl. by rewrite printed_app.
  - rewrite (scrape_to_markdown_run _ _ _ _ _ Hl Ha). cbv zeta. rewrite Hs.
    destruct Hcase as [-> | (path & -> & ->)]; intros Hrel;
      (apply Hfin; [done| |done]); simpl; by rewrite printed_app.
Qed.

Lemma scrape_errors_surface_witness :
  let w := Demo.read_only (Demo.world None Demo.page) in
  let run := Scrape.main w ["scrape.py"; "https://example.com"; "out.md"] (start ∅) in
  run.1 = Raised (OSError "[Errno 13] Permission denied")
  /\ exit_code run.1 = 1
  /\ fs run.2 = ∅.
Proof.
  intros w run.
  pose proof (scrape_errors_surface w "scrape.py" "https://example.com" ["out.md"]
    (start ∅) (OSError "[Errno 13] Permission denied") eq_refl
    (or_intror (ex_intro _ Demo.page (conj eq_refl (conj eq_refl
       (or_intror (ex_intro _ "out.md" (conj eq_refl eq_refl))))))))
    as (H1 & H2 & H3 & _).
  exact (conj H1 (conj H2 H3)).
Defined.

(** X4.  An output file given on the command line and not empty is used as it
    is, whatever follows it on the command line and whatever the URL looks
    like (the URL is not parsed at all): the page's markdown is written
    there verbatim.  An empty output argument counts as none. *)
Theorem explicit_output_file_is_used w prog url out rest s r :
  PyStr.truthy out = true ->
  launch w Scrape.browser_config = None ->
  arun w url Scrape.run_config = Returned r ->
  success r = true ->
  open_w w out = None ->
  let run := Scrape.main w (prog :: url :: out :: rest) s in
  run.1 = Returned tt
  /\ fs run.2 = <[out := Scrape.markdown_content r]> (fs s)
  /\ (forall m, markdown r = Some m -> PyStr.truthy m = true ->
        fs run.2 !! out = Some m)
  /\ printed (trace run.2) =
       printed (trace s) ++
         [ "Scraping: " +:+ url;
           "Success! Saved to " +:+ out;
           "Content length: "
             +:+ PyStr.of_nat (String.length (Scrape.markdown_content r))
             +:+ " characters" ]
  /\ Scrape.main w (prog :: url :: "" :: rest) s = Scrape.main w [prog; url] s.
Proof.
  intros Ht Hl Ha Hs Ho run. subst run. unfold Scrape.main.
  change (length (prog :: url :: out :: rest) <? 2)%nat with false.
  change (2 <? length (prog :: url :: out :: rest))%nat with true. cbv iota.
  change (nth 1 (prog :: url :: out :: rest) "") with url.
  change (nth 2 (prog :: url :: out :: rest) "") with out.
  unfold mbind, M_bind.
  rewrite (scrape_to_markdown_run _ _ _ _ _ Hl Ha). cbv zeta. rewrite Hs.
  unfold Scrape.output_path. rewrite Ht, Ho. simpl.
  split; [done|]. split; [done|]. split.
  - intros m Hm Htm. rewrite lookup_insert_eq.
    unfold Scrape.markdown_content. by rewrite Hm, Htm.
  - split; [by rewrite printed_app|]. done.
Qed.

Lemma explicit_output_file_is_used_witness :
  let run := Scrape.main (Demo.world None Demo.page)
               ["scrape.py"; "not a url"; "page.md"; "ignored"] (start ∅) in
  run.1 = Returned tt /\ fs run.2 !! "page.md" = Some "# Example Domain".
Proof.
  intros run.
  pose proof (explicit_output_file_is_used (Demo.world None Demo.page)
    "scrape.py" "not a url" "page.md" ["ignored"] (start ∅) Demo.page
    eq_refl eq_refl eq_refl eq_refl eq_refl) as (H1 & _ & H3 & _).
  exact (conj H1 (H3 "# Example Domain" eq_refl eq_refl)).
Defined.

(** X5.  Opening with mode [w] truncates: when two runs resolve to the same
    output path, the file holds the markdown of the second run only. *)
Theorem rerun_overwrites w1 w2 url output_file s r1 r2 path :
  launch w1 Scrape.browser_config = None ->
  launch w2 Scrape.browser_config = None ->
  arun w1 url Scrape.run_config = Returned r1 ->
  arun w2 url Scrape.run_config = Returned r2 ->
  success r1 = true -> success r2 = true ->
  Scrape.output_path w1 url output_file = Returned path ->
  Scrape.output_path w2 url output_file = Returned path ->
  open_w w1 path = None -> open_w w2 path = None ->
  let first := Scrape.scrape_to_markdown w1 url output_file s in
  let second := Scrape.scrape_to_markdown w2 url output_file first.2 in
  second.1 = Returned (Some (Scrape.markdown_content r2))
  /\ fs second.2 = <[path := Scrape.markdown_content r2]> (fs s).
Proof.
  intros Hl1 Hl2 Ha1 Ha2 Hs1 Hs2 Hp1 Hp2 Ho1 Ho2 first second.
  subst second first.
  rewrite (scrape_to_markdown_run w2 _ _ _ _ Hl2 Ha2).
  rewrite (scrape_to_markdown_run w1 _ _ _ _ Hl1 Ha1). cbv zeta.
  rewrite Hs1, Hs2, Hp1, Hp2, Ho1, Ho2. simpl.
  split; [done|]. apply insert_insert_eq.
Qed.

Lemma rerun_overwrites_witness :
  let first := Scrape.scrape_to_markdown (Demo.world None Demo.page)
                 "https://example.com" None (start ∅) in
  let second := Scrape.scrape_to_markdown (Demo.world None Demo.empty_page)
                  "https://example.com" None first.2 in
  fs second.2 = <["example_com.md" := ""]> ∅.
Proof.
  exact (proj2 (rerun_overwrites (Demo.world None Demo.page)
    (Demo.world None Demo.empty_page) "https://example.com" None (start ∅)
    Demo.page Demo.empty_page "example_com.md"
    eq_refl eq_refl eq_refl eq_refl eq_refl eq_refl eq_refl eq_refl eq_refl eq_refl)).
Defined.

(** *** Where the default output file can be *)

Lemma mem_app c s t : PyStr.mem c (s +:+ t) = PyStr.mem c s || PyStr.mem c t.
Proof.
  induction s as [|d s IH]; [done|].
  change (String d s +:+ t) with (String d (s +:+ t)). simpl.
  by rewrite IH, orb_assoc.
Qed.

Lemma replace_keeps_absent c a b s :
  c <> b -> PyStr.mem c s = false -> PyStr.mem c (PyStr.replace a b s) = false.
Proof.
  intros Hcb. induction s as [|d s IH]; [done|]. simpl.
  intros [Hd Hs]%orb_false_iff. rewrite (IH Hs), orb_false_r.
  destruct (Ascii.eqb d a); [|done].
  apply Ascii.eqb_neq. congruence.
Qed.

Lemma up_to_delim_no_slash s : PyStr.mem "/" (Url.up_to_delim s) = false.
Proof.
  induction s as [|c s IH]; [done|]. simpl.
  destruct (Ascii.eqb c "/") eqn:Hc; [done|]. simpl.
  destruct (_ || _); [done|]. simpl. by rewrite Hc.
Qed.

Lemma split_netloc_cases url :
  Url.split_netloc url = "" \/ exists rest, Url.split_netloc url = Url.up_to_delim rest.
Proof. unfold Url.split_netloc. repeat case_match; eauto. Qed.

Lemma split_netloc_no_slash url : PyStr.mem "/" (Url.split_netloc url) = false.
Proof.
  destruct (split_netloc_cases url) as [-> | [rest ->]]; [done|].
  apply up_to_delim_no_slash.
Qed.

(** X6.  The default output file never leaves the working directory: whatever
    the URL, the derived name holds no [/], and the only [.] in it is the
    one of its [.md] extension. *)
Theorem default_output_file_stays_in_cwd w url name :
  Scrape.output_path w url None = Returned name ->
  PyStr.mem "/" name = false
  /\ exists stem, name = stem +:+ ".md" /\ PyStr.mem "." stem = false
                  /\ String.length stem = String.length (Url.split_netloc url).
Proof.
  unfold Scrape.output_path, Scrape.derived_output_file.
  destruct (Url.netloc _ url) as [n|e] eqn:Hn; [|done].
  intros [= <-]. apply netloc_returned in Hn as ->.
  unfold Scrape.default_output_file. split.
  - rewrite mem_app, replace_keeps_absent; [done|done|].
    apply split_netloc_no_slash.
  - eexists. split; [done|]. split; [by apply replace_removes|].
    generalize (Url.split_netloc url). intros n.
    induction n as [|c n IH]; [done|]. simpl. by rewrite IH.
Qed.

Lemma default_output_file_stays_in_cwd_witness :
  PyStr.mem "/" "a_b_c.md" = false.
Proof.
  exact (proj1 (default_output_file_stays_in_cwd (Demo.world None Demo.page)
                  "https://a.b.c/../../etc/passwd" "a_b_c.md" eq_refl)).
Defined.

Lemma lstrip_no_slash s :
  PyStr.mem "/" s = false -> PyStr.mem "/" (Url.lstrip_c0_or_space s) = false.
Proof.
  induction s as [|c s IH]; [done|]. simpl.
  destruct (_ <=? _)%N; [|done]. intros [_ Hs]%orb_false_iff. by apply IH.
Qed.

Lemma remove_unsafe_no_slash s :
  PyStr.mem "/" s = false -> PyStr.mem "/" (Url.remove_unsafe s) = false.
Proof.
  induction s as [|c s IH]; [done|]. simpl.
  intros [Hc Hs]%orb_false_iff.
  destruct (_ || _); [by apply IH|]. simpl. by rewrite Hc, IH.
Qed.

Lemma after_scheme_no_slash s t :
  PyStr.mem "/" s = false -> Url.after_scheme s = Some t -> PyStr.mem "/" t = false.
Proof.
  revert t. induction s as [|c s IH]; [done|]. simpl.
  intros t [Hc Hs]%orb_false_iff.
  destruct (Ascii.eqb c ":"); [by intros [= <-]|].
  destruct (Url.is_scheme_char c); [by apply IH|done].
Qed.

Lemma strip_scheme_no_slash s :
  PyStr.mem "/" s = false -> PyStr.mem "/" (Url.strip_scheme s) = false.
Proof.
  intros Hs. unfold Url.strip_scheme.
  destruct s as [|c s]; [done|].
  destruct (Url.is_alpha c); [|done].
  destruct (Url.after_scheme (String c s)) as [t|] eqn:Ht; [|done].
  simpl. by eapply after_scheme_no_slash.
Qed.

Lemma no_slash_no_netloc url : PyStr.mem "/" url = false -> Url.split_netloc url = "".
Proof.
  intros H. unfold Url.split_netloc.
  pose proof (strip_scheme_no_slash _ (remove_unsafe_no_slash _ (lstrip_no_slash _ H)))
    as Hs.
  destruct (Url.strip_scheme _) as [|c t]; [done|].
  simpl in Hs. apply orb_false_iff in Hs as [Hc _].
  destruct c as [[] [] [] [] [] [] [] []]; try done.
Qed.

(** X7.  URLs without a network location all derive the same hidden file
    [.md]: a local page given as [file:///path], whatever the path, and any
    URL without a slash, such as a bare host name or a [raw:] document. *)
Theorem urls_without_netloc_share_a_file w :
  (forall path, Scrape.output_path w ("file:///" +:+ path) None = Returned ".md")
  /\ (forall url, PyStr.mem "/" url = false ->
        Scrape.output_path w url None = Returned ".md").
Proof.
  split.
  - intros path. by vm_compute.
  - intros url H. unfold Scrape.output_path, Scrape.derived_output_file, Url.netloc.
    by rewrite (no_slash_no_netloc _ H).
Qed.

Lemma urls_without_netloc_share_a_file_witness :
  Scrape.output_path (Demo.world None Demo.page) "example.com" None = Returned ".md"
  /\ Scrape.output_path (Demo.world None Demo.page) "file:///home/me/a.html" None
     = Returned ".md".
Proof.
  pose proof (urls_without_netloc_share_a_file (Demo.world None Demo.page)) as [H1 H2].
  exact (conj (H2 "example.com" eq_refl) (H1 "home/me/a.html")).
Defined.

(** * Further properties of scrape_reddit.py *)

(** The run when the crawl itself raises. *)
Lemma scrape_reddit_crawl_raises w key s e :
  credential w key ->
  launch w ScrapeReddit.browser_config = None ->
  arun w ScrapeReddit.target_url (ScrapeReddit.run_config_of key) = Raised e ->
  ScrapeReddit.scrape_reddit_internship w s =
    (Raised e,
     {| fs := fs s;
        trace := trace s ++
          [ELaunch ScrapeReddit.browser_config; EPrint "Crawling r/internships...";
           EArun ScrapeReddit.target_url (ScrapeReddit.run_config_of key); EClose] |}).
Proof.
  intros Hc Hl Ha. rewrite (scrape_reddit_with_credential _ _ _ Hc).
  rewrite (async_with_run _ _ _ _ Hl).
  unfold ScrapeReddit.crawl_and_extract, crawler_arun, print, emit, lift, mbind, M_bind.
  simpl. rewrite Ha. simpl. by rewrite <- ?app_assoc.
Qed.


(** Records that can be displayed, but a file that cannot be opened. *)
Lemma parse_display_save_unwritable w content data posts e s :
  json_loads w content = Returned data ->
  ScrapeReddit.normalize_posts data = Returned posts ->
  displayable posts = true ->
  open_w w "reddit_posts.json" = Some e ->
  exists s1,
    printed_from s s1 /\
    ScrapeReddit.parse_display_save w content s = (Raised e, s1).
Proof.
  intros Hj Hn Hd Ho.
  destruct (displayable_len_iter posts Hd) as (n & items & Hlen & Hit & Hall).
  unfold ScrapeReddit.parse_display_save, lift, write_file, mbind, M_bind.
  rewrite Hj, Hn, Hlen. cbn [print emit]. rewrite Hit, Ho.
  set (s0 := {| fs := fs s; trace := _ |}).
  destruct (display_loop_ok w items 1 s0 Hall) as (s1 & E1 & P1).
  rewrite E1. exists s1. split; [|done].
  eapply printed_from_trans; [|exact P1]. by eexists [_].
Qed.

(** A raised exception meets the handler: a [JSONDecodeError] is
    reported in two lines, anything else passes. *)
Lemma handler_only_prints content e s s1 :
  printed_from s s1 ->
  printed_and_maybe_saved s
    (match (Raised e, s1) with
     | (Raised (JSONDecodeError msg), s') =>
         ScrapeReddit.report_parse_error content msg s'
     | r => r
     end).
Proof.
  intros [lines ->].
  destruct e; try (exists lines; split; [done|by left]).
  exists (lines ++ ["Error parsing extracted content: " +:+ msg;
                    "Raw content: " +:+ PyStr.take 500 content]).
  split; [|by left].
  unfold ScrapeReddit.report_parse_error, print, emit, mbind, M_bind. simpl.
  by rewrite fmap_app, <- !app_assoc.
Qed.

(** What the [try] statement can do, whatever the answer and the world:
    it only prints, and either leaves the files alone or ends normally
    with [reddit_posts.json] holding the dump of some records. *)
Lemma try_statement_cases w content s :
  printed_and_maybe_saved s
    (try_except_JSONDecodeError
       (ScrapeReddit.parse_display_save w content)
       (ScrapeReddit.report_parse_error content) s).
Proof.
  unfold try_except_JSONDecodeError.
  destruct (json_loads w content) as [data|e] eqn:Hj.
  2:{ rewrite (parse_display_save_invalid _ _ _ _ Hj).
      apply handler_only_prints, printed_from_refl. }
  destruct (ScrapeReddit.normalize_posts data) as [posts|e0] eqn:Hn.
  2:{ destruct (parse_display_save_bad w content data s Hj) as (e & s1 & E & _ & P).
      - intros posts Hp. congruence.
      - rewrite E. by apply handler_only_prints. }
  destruct (displayable posts) eqn:Hd.
  2:{ destruct (parse_display_save_bad w content data s Hj) as (e & s1 & E & _ & P).
      - intros posts' Hp. congruence.
      - rewrite E. by apply handler_only_prints. }
  destruct (open_w w "reddit_posts.json") as [e|] eqn:Ho.
  - destruct (parse_display_save_unwritable w content data posts e s Hj Hn Hd Ho)
      as (s1 & P & E).
    rewrite E. by apply handler_only_prints.
  - destruct (parse_display_save_ok w content data posts s Hj Hn Hd Ho)
      as (s1 & [lines ->] & E).
    rewrite E. exists (lines ++ ["Data saved to reddit_posts.json"]). split.
    + simpl. by rewrite fmap_app, <- !app_assoc.
    + right. split; [done|]. by exists posts.
Qed.


(** X10.  A run of [scrape_reddit_internship] that passed the credential check
    and started the browser is one launch, one line, one crawl of the fixed
    subreddit URL, then printed lines only, then the release.  The crawl is
    configured with the key read from the environment as the model's API
    token, and bypasses the cache. *)
Theorem reddit_crawls_once w key s :
  credential w key ->
  launch w ScrapeReddit.browser_config = None ->
  exists config lines,
    trace (ScrapeReddit.scrape_reddit_internship w s).2 =
      trace s ++
        [ELaunch ScrapeReddit.browser_config; EPrint "Crawling r/internships...";
         EArun "https://www.reddit.com/r/internships/new/" config]
        ++ (EPrint <$> lines) ++ [EClose]
    /\ (api_token ∘ llm_config) <$> extraction_strategy config = Some key
    /\ cache_mode config = BYPASS.
Proof.
  intros Hc Hl. exists (ScrapeReddit.run_config_of key).
  destruct (arun w ScrapeReddit.target_url (ScrapeReddit.run_config_of key))
    as [r|e] eqn:Ha.
  2:{ rewrite (scrape_reddit_crawl_raises _ _ _ _ Hc Hl Ha). by exists []. }
  rewrite (scrape_reddit_run _ _ _ _ Hc Hl Ha). cbv zeta.
  destruct (success r); [|by eexists [_]].
  destruct (ScrapeReddit.nonempty_content r) as [content|]; [|by eexists [_; _; _; _]].
  set (s0 := {| fs := fs s; trace := _ |}).
  destruct (try_statement_cases w content s0) as (lines & Et & _).
  eexists (_ :: _ :: lines). split; [|done].
  simpl. rewrite Et. subst s0. simpl. by rewrite <- !app_assoc.
Qed.

Lemma reddit_crawls_once_witness :
  exists config lines,
    trace (ScrapeReddit.scrape_reddit_internship
             (Demo.world (Some "secret") (Demo.extracted "not json")) (start ∅)).2 =
      [ELaunch ScrapeReddit.browser_config; EPrint "Crawling r/internships...";
       EArun "https://www.reddit.com/r/internships/new/" config]
      ++ (EPrint <$> lines) ++ [EClose]
    /\ (api_token ∘ llm_config) <$> extraction_strategy config = Some "secret".
Proof.
  destruct (reddit_crawls_once (Demo.world (Some "secret") (Demo.extracted "not json"))
              "secret" (start ∅) (conj eq_refl eq_refl) eq_refl)
    as (config & lines & E & Hk & _).
  by exists config, lines.
Defined.

(** X11.  When there is nothing to extract -- the crawl reports failure, or it
    succeeds without extracted content -- the run says so and ends
    normally, with exit code 0; the answer is not parsed and no file is
    written, whatever [json.loads] or the file system would have done. *)
Theorem nothing_to_extract w key r s :
  credential w key ->
  launch w ScrapeReddit.browser_config = None ->
  arun w ScrapeReddit.target_url (ScrapeReddit.run_config_of key) = Returned r ->
  success r = false \/ extracted_content r = None \/ extracted_content r = Some "" ->
  let run := ScrapeReddit.scrape_reddit_internship w s in
  run.1 = Returned tt /\ exit_code run.1 = 0 /\ fs run.2 = fs s
  /\ printed (trace run.2) =
       printed (trace s) ++
         "Crawling r/internships..." ::
         (if success r then
            [ PyStr.nl +:+ "Crawl successful!";
              "Status code: " +:+ Py.str_opt_Z (status_code r);
              "No content extracted by LLM";
              "Raw markdown (first 1000 chars):" +:+ PyStr.nl
                +:+ ScrapeReddit.markdown_head r ]
          else ["Crawl failed: " +:+ Py.str_opt (error_message r)]).
Proof.
  intros Hc Hl Ha Hcase run. subst run.
  rewrite (scrape_reddit_run _ _ _ _ Hc Hl Ha). cbv zeta.
  destruct (success r) eqn:Hs.
  - assert (ScrapeReddit.nonempty_content r = None) as ->.
    { unfold ScrapeReddit.nonempty_content.
      by destruct Hcase as [? | [-> | ->]]. }
    repeat (split; [done|]). simpl. by rewrite printed_app.
  - repeat (split; [done|]). simpl. by rewrite printed_app.
Qed.

Lemma nothing_to_extract_witness :
  let run := ScrapeReddit.scrape_reddit_internship
               (Demo.world (Some "secret") Demo.page) (start ∅) in
  run.1 = Returned tt
  /\ printed (trace run.2) =
       [ "Crawling r/internships...";
         PyStr.nl +:+ "Crawl successful!";
         "Status code: 200";
         "No content extracted by LLM";
         "Raw markdown (first 1000 chars):" +:+ PyStr.nl +:+ "# Example Domain" ].
Proof.
  intros run.
  pose proof (nothing_to_extract (Demo.world (Some "secret") Demo.page) "secret"
    Demo.page (start ∅) (conj eq_refl eq_refl) eq_refl eq_refl
    (or_intror (or_introl eq_refl))) as (H1 & _ & _ & H4).
  exact (conj H1 H4).
Defined.

(** X12.  A file that cannot be opened is not swallowed by the [try]
    statement: unless the error is itself a [JSONDecodeError], it leaves the
    run as it is, after the records were displayed and the browser was
    released; nothing is written. *)
Theorem write_failure_surfaces w key r content data posts e s :
  answered w key r content ->
  json_loads w content = Returned data ->
  ScrapeReddit.normalize_posts data = Returned posts ->
  displayable posts = true ->
  open_w w "reddit_posts.json" = Some e ->
  (forall msg, e <> JSONDecodeError msg) ->
  let run := ScrapeReddit.scrape_reddit_internship w s in
  run.1 = Raised e /\ fs run.2 = fs s /\ released_once s run.2.
Proof.
  intros (Hc & Hl & Ha & Hs & Hn) Hj Hnorm Hd Ho Hne run.
  pose proof (scrape_reddit_released_once w key s Hl Hc) as Hrel.
  subst run. revert Hrel.
  rewrite (scrape_reddit_run _ _ _ _ Hc Hl Ha). cbv zeta. rewrite Hs, Hn.
  unfold try_except_JSONDecodeError.
  set (s0 := {| fs := fs s; trace := _ |}).
  destruct (parse_display_save_unwritable w content data posts e s0 Hj Hnorm Hd Ho)
    as (s1 & [lines ->] & E).
  rewrite E. intros Hrel.
  destruct e; try done. by destruct (Hne msg).
Qed.

Lemma write_failure_surfaces_witness :
  let run := ScrapeReddit.scrape_reddit_internship
               (Demo.read_only
                  (Demo.world (Some "secret") (Demo.extracted Demo.one_post_text)))
               (start ∅) in
  run.1 = Raised (OSError "[Errno 13] Permission denied") /\ fs run.2 = ∅.
Proof.
  intros run.
  pose proof (write_failure_surfaces
    (Demo.read_only (Demo.world (Some "secret") (Demo.extracted Demo.one_post_text)))
    "secret" (Demo.extracted Demo.one_post_text) Demo.one_post_text Demo.one_post
    (PyList [PyDict [("title", PyStr "A"); ("author", PyStr "B")]])
    (OSError "[Errno 13] Permission denied") (start ∅)
    (conj (conj eq_refl eq_refl) (conj eq_refl (conj eq_refl (conj eq_refl eq_refl))))
    eq_refl eq_refl eq_refl eq_refl ltac:(discriminate)) as (H1 & H2 & _).
  exact (conj H1 H2).
Defined.

(** *** What the credential can influence *)

Lemma printed_snoc tr e :
  printed (tr ++ [e]) = printed tr ++ match e with EPrint t => [t] | _ => [] end.
Proof. rewrite printed_app. by destruct e. Qed.

Lemma alike_ret {A} (a : A) : alike (mret a) (mret a).
Proof. by intros s1 s2 H. Qed.

Lemma alike_raise {A} (e : exn) : alike (raise (A:=A) e) (raise e).
Proof. by intros s1 s2 H. Qed.

Lemma alike_lift {A} (o1 o2 : outcome A) : o1 = o2 -> alike (lift o1) (lift o2).
Proof. intros -> s1 s2 H. by split. Qed.

Lemma alike_print text : alike (print text) (print text).
Proof.
  intros s1 s2 [Hf Hp]. split; [done|]. split; [done|]. simpl.
  by rewrite !printed_snoc, Hp.
Qed.

(** Events other than printed lines do not show. *)
Lemma alike_silent e1 e2 :
  is_browser_event e1 = true -> is_browser_event e2 = true ->
  alike (emit e1) (emit e2).
Proof.
  intros H1 H2 s1 s2 [Hf Hp]. split; [done|]. split; [done|]. simpl.
  rewrite !printed_snoc, Hp. by destruct e1, e2.
Qed.

Lemma alike_bind {A B} (m1 m2 : M A) (f1 f2 : A -> M B) :
  alike m1 m2 -> (forall a, alike (f1 a) (f2 a)) -> alike (m1 ≫= f1) (m2 ≫= f2).
Proof.
  intros Hm Hf s1 s2 H. unfold mbind, M_bind.
  destruct (Hm s1 s2 H) as [Ho Hv].
  destruct (m1 s1) as [[a1|e1] t1], (m2 s2) as [[a2|e2] t2]; simpl in *;
    try discriminate Ho.
  - injection Ho as <-. by apply Hf.
  - injection Ho as <-. by split.
Qed.

Lemma alike_try_except {A} (b1 b2 : M A) h1 h2 :
  alike b1 b2 -> (forall msg, alike (h1 msg) (h2 msg)) ->
  alike (try_except_JSONDecodeError b1 h1) (try_except_JSONDecodeError b2 h2).
Proof.
  intros Hb Hh s1 s2 H. unfold try_except_JSONDecodeError.
  destruct (Hb s1 s2 H) as [Ho Hv].
  destruct (b1 s1) as [[a1|e1] t1], (b2 s2) as [[a2|e2] t2]; simpl in *;
    try discriminate Ho.
  - by split.
  - injection Ho as <-. destruct e1; try (by split). by apply Hh.
Qed.

Lemma alike_write_file w1 w2 path text :
  open_w w1 path = open_w w2 path ->
  alike (write_file w1 path text) (write_file w2 path text).
Proof.
  intros Ho. unfold write_file. rewrite Ho.
  destruct (open_w w2 path); [apply alike_raise|].
  intros s1 s2 [Hf Hp]. split; [done|]. split; [|done]. simpl. by rewrite Hf.
Qed.

Lemma alike_for_enumerate items start b1 b2 :
  (forall i x, alike (b1 i x) (b2 i x)) ->
  alike (for_enumerate items start b1) (for_enumerate items start b2).
Proof.
  intros Hb. revert start.
  induction items as [|x items IH]; intros start; simpl.
  - apply alike_ret.
  - apply alike_bind; [apply Hb | intros _; apply IH].
Qed.

Lemma alike_async_with {A} w1 w2 config (b1 b2 : M A) :
  launch w1 config = launch w2 config ->
  alike b1 b2 ->
  alike (async_with_AsyncWebCrawler w1 config b1)
        (async_with_AsyncWebCrawler w2 config b2).
Proof.
  intros Hl Hb. unfold async_with_AsyncWebCrawler. rewrite Hl.
  apply alike_bind; [by apply alike_silent|]. intros _.
  destruct (launch w2 config); [apply alike_raise|].
  intros s1 s2 H. destruct (Hb s1 s2 H) as [Ho [Hf Hp]].
  destruct (b1 s1) as [r1 t1], (b2 s2) as [r2 t2]. simpl in *.
  split; [done|]. split; [done|]. simpl. by rewrite !printed_snoc, Hp.
Qed.

Ltac alike_step :=
  first
    [ apply alike_ret | apply alike_raise | apply alike_print
    | apply alike_lift; first [reflexivity | eauto; fail]
    | apply alike_write_file; eauto; fail
    | apply alike_bind; [|intros ?]
    | apply alike_try_except; [|intros ?]
    | apply alike_for_enumerate; intros ? ?
    | match goal with
      | |- alike (if ?b then _ else _) _ => destruct b
      | |- alike (match ?x with _ => _ end) _ => destruct x
      end ].

(** X14.  The credential is used for the model call and for nothing else: in
    two worlds that differ only in the key, and in which the crawl answers
    the same, the runs end alike, with the same files and the same printed
    lines.  The key is neither printed nor written. *)
Theorem credential_is_not_shown w1 w2 key1 key2 s :
  same_but_credential w1 w2 key1 key2 ->
  let run1 := ScrapeReddit.scrape_reddit_internship w1 s in
  let run2 := ScrapeReddit.scrape_reddit_internship w2 s in
  run1.1 = run2.1
  /\ fs run1.2 = fs run2.2
  /\ printed (trace run1.2) = printed (trace run2.2).
Proof.
  intros (Hc1 & Hc2 & Hl & Ha & Hj & Ho & Hh) run1 run2. subst run1 run2.
  rewrite (scrape_reddit_with_credential _ _ _ Hc1).
  rewrite (scrape_reddit_with_credential _ _ _ Hc2).
  assert (alike
            (async_with_AsyncWebCrawler w1 ScrapeReddit.browser_config
               (ScrapeReddit.crawl_and_extract w1 key1))
            (async_with_AsyncWebCrawler w2 ScrapeReddit.browser_config
               (ScrapeReddit.crawl_and_extract w2 key2))) as Halike.
  { apply alike_async_with; [done|].
    unfold ScrapeReddit.crawl_and_extract. apply alike_bind; [apply alike_print|].
    intros _. apply alike_bind.
    { unfold crawler_arun. apply alike_bind; [by apply alike_silent|].
      intros _. by apply alike_lift. }
    intros r.
    unfold ScrapeReddit.parse_display_save, ScrapeReddit.report_parse_error,
      ScrapeReddit.display_post, ScrapeReddit.print_field.
    rewrite Hh. repeat alike_step. }
  destruct (Halike s s) as [H1 [H2 H3]]; [by split|]. by repeat split.
Qed.

Lemma credential_is_not_shown_witness :
  let run1 := ScrapeReddit.scrape_reddit_internship
                (Demo.world (Some "secret") (Demo.extracted Demo.one_post_text))
                (start ∅) in
  let run2 := ScrapeReddit.scrape_reddit_internship
                (Demo.world (Some "another key") (Demo.extracted Demo.one_post_text))
                (start ∅) in
  printed (trace run1.2) = printed (trace run2.2) /\ fs run1.2 = fs run2.2.
Proof.
  intros run1 run2.
  pose proof (credential_is_not_shown
    (Demo.world (Some "secret") (Demo.extracted Demo.one_post_text))
    (Demo.world (Some "another key") (Demo.extracted Demo.one_post_text))
    "secret" "another key" (start ∅)
    (conj (conj eq_refl eq_refl) (conj (conj eq_refl eq_refl) (conj eq_refl
       (conj eq_refl (conj (fun _ => eq_refl) (conj (fun _ => eq_refl) eq_refl)))))))
    as (_ & H2 & H3).
  exact (conj H3 H2).
Defined.

(** *** What the display shows *)





(** *** Excerpts *)

Lemma take_length n s :
  String.length (PyStr.take n s) = Nat.min n (String.length s).
Proof.
  revert s. induction n as [|n IH]; intros [|c s]; simpl; try done.
  by rewrite IH.
Qed.

Lemma take_is_prefix n s : exists rest, s = PyStr.take n s +:+ rest.
Proof.
  revert s. induction n as [|n IH]; intros s.
  - exists s. by destruct s.
  - destruct s as [|c s]; [by exists ""|].
    destruct (IH s) as [rest E]. exists rest. simpl.
    change (String c (PyStr.take n s) +:+ rest)
      with (String c (PyStr.take n s +:+ rest)).
    by rewrite <- E.
Qed.

Lemma take_all n s : (String.length s <= n)%nat -> PyStr.take n s = s.
Proof.
  revert s. induction n as [|n IH]; intros [|c s]; simpl; try done; [lia|].
  intros H. rewrite IH; [done|lia].
Qed.

(** X16.  The excerpts the script prints are bounded prefixes: at most the
    first 500 characters of an answer that does not parse, at most the
    first 1000 characters of the page's markdown, and at most the first 100
    characters of a record's preview text; a text within the bound is shown
    whole. *)
Theorem excerpts_are_bounded_prefixes w :
  (forall content e s,
     exists shown rest,
       printed (trace (ScrapeReddit.report_parse_error content e s).2) =
         printed (trace s) ++
           ["Error parsing extracted content: " +:+ e; "Raw content: " +:+ shown]
       /\ content = shown +:+ rest
       /\ String.length shown = Nat.min 500 (String.length content))
  /\ (forall r m,
        markdown r = Some m -> PyStr.truthy m = true ->
        (exists rest, m = ScrapeReddit.markdown_head r +:+ rest)
        /\ String.length (ScrapeReddit.markdown_head r)
           = Nat.min 1000 (String.length m))
  /\ (forall i d text s,
        Py.dict_get d "content_preview" PyNone = PyStr text ->
        PyStr.truthy text = true ->
        exists shown rest lines,
          printed (trace (ScrapeReddit.display_post w i (PyDict d) s).2) =
            printed (trace s) ++ lines ++ ["Preview: " +:+ shown +:+ "..."; ""]
          /\ text = shown +:+ rest
          /\ String.length shown = Nat.min 100 (String.length text)
          /\ ((String.length text <= 100)%nat -> shown = text)).
Proof.
  split; [|split].
  - intros content e s. destruct (take_is_prefix 500 content) as [rest E].
    exists (PyStr.take 500 content), rest.
    split; [|split; [done|apply take_length]].
    unfold ScrapeReddit.report_parse_error, print, emit, mbind, M_bind. simpl.
    by rewrite <- !app_assoc, printed_app.
  - intros r m Hm Ht. unfold ScrapeReddit.markdown_head. rewrite Hm, Ht.
    split; [apply take_is_prefix | apply take_length].
  - intros i d text s Hp Ht. destruct (take_is_prefix 100 text) as [rest E].
    exists (PyStr.take 100 text), rest.
    eexists [_; _; _; _; _; _].
    split; [|split; [done|split; [apply take_length|apply take_all]]].
    unfold ScrapeReddit.display_post, ScrapeReddit.print_field, Py.get, lift,
      mbind, mret, M_bind, M_ret.
    cbn [print emit fst snd]. rewrite Hp. simpl. rewrite Ht. simpl.
    by rewrite <- !app_assoc, printed_app.
Qed.
